(** * Resume analyser: document ingestion and resilient-response pipeline

    A shallow embedding of [resume_analyzer.py]:

    - [extract_structured_content]  (section segmentation of the lines the
      document service returns),
    - [extract_text_from_pdf_rest]  (REST submission over a list of API
      versions, legacy fallback, bounded polling),
    - [analyze_resume_with_gpt4o] and [analyze_resume]  (layered decoding of
      the model's reply and construction of the [ResumeAnalysis] record).

    Python strings are sequences of Unicode code points, so a [str] is a list
    of code points ([N]).  Python exceptions are an explicit [result] type.
    The HTTP service is an oracle giving the outcome of the n-th request, and
    every request and every [time.sleep] is recorded in a trace. *)

From Stdlib Require Import Strings.String Strings.Ascii.
From Stdlib Require Import List ZArith NArith Bool Lia.
Import ListNotations.
Local Open Scope Z_scope.
Set Warnings "-register-all".

(* ================================================================== *)
(** ** Python strings *)
(* ================================================================== *)

Definition char := N.
Definition str := list char.

(** A literal: the code points of an ASCII Rocq string. *)
Fixpoint py (s : string) : str :=
  match s with
  | EmptyString => []
  | String c r => N_of_ascii c :: py r
  end.
Arguments py _%_string.

(** A literal in which an apostrophe stands for the double quote (code
    point 34); used to write JSON texts. *)
Definition pyq (s : string) : str :=
  map (fun c => if N.eqb c 39 then 34%N else c) (py s).
Arguments pyq _%_string.

Definition LF : str := [10%N].

Fixpoint str_eqb (a b : str) : bool :=
  match a, b with
  | [], [] => true
  | x :: a', y :: b' => N.eqb x y && str_eqb a' b'
  | _, _ => false
  end.

(** [s.startswith(p)] *)
Fixpoint startswith (s p : str) {struct p} : bool :=
  match p, s with
  | [], _ => true
  | _ :: _, [] => false
  | y :: p', x :: s' => N.eqb x y && startswith s' p'
  end.

(** [s.endswith(p)] *)
Definition endswith (s p : str) : bool := startswith (rev s) (rev p).

(** [sub in s] *)
Fixpoint contains (sub s : str) : bool :=
  startswith s sub ||
  match s with
  | [] => false
  | _ :: r => contains sub r
  end.


Definition len (s : str) : Z := Z.of_nat (length s).

(** Python's clamping of a slice bound. *)
Definition clamp (s : str) (i : Z) : Z :=
  if i <? 0 then Z.max 0 (i + len s) else Z.min i (len s).


(** [s[a:b]] *)
Definition slice (s : str) (a b : Z) : str :=
  let a' := clamp s a in
  let b' := clamp s b in
  firstn (Z.to_nat (b' - a')) (skipn (Z.to_nat a') s).

(** [str.isspace] of one code point. *)
Definition isspace (c : char) : bool :=
  ((9 <=? c) && (c <=? 13) || (28 <=? c) && (c <=? 32)
   || (c =? 133) || (c =? 160) || (c =? 5760)
   || (8192 <=? c) && (c <=? 8202)
   || (c =? 8232) || (c =? 8233) || (c =? 8239) || (c =? 8287)
   || (c =? 12288))%N.

Fixpoint lstrip (s : str) : str :=
  match s with
  | [] => []
  | c :: r => if isspace c then lstrip r else s
  end.

Definition rstrip (s : str) : str := rev (lstrip (rev s)).

(** [s.strip()] *)
Definition strip (s : str) : str := rstrip (lstrip s).

Fixpoint lstrip_char (c : char) (s : str) : str :=
  match s with
  | [] => []
  | x :: r => if N.eqb x c then lstrip_char c r else s
  end.

(** [s.rstrip(c)] for a one-character argument. *)
Definition rstrip_char (c : char) (s : str) : str :=
  rev (lstrip_char c (rev s)).

(** [s.split()]: the maximal runs of non-whitespace characters.  [cur] is
    the run being read, reversed. *)
Fixpoint split_go (cur : str) (s : str) : list str :=
  match s with
  | [] => match cur with [] => [] | _ => [rev cur] end
  | c :: r =>
      if isspace c
      then match cur with
           | [] => split_go [] r
           | _ => rev cur :: split_go [] r
           end
      else split_go (c :: cur) r
  end.

Definition split (s : str) : list str := split_go [] s.

(** [sep.join(l)] *)
Fixpoint join (sep : str) (l : list str) : str :=
  match l with
  | [] => []
  | [x] => x
  | x :: r => x ++ sep ++ join sep r
  end.



(** [str.lower] and [str.upper] implement the Unicode case mappings; they
    are taken as given. *)
Class CaseMap := {
  lower : str -> str;
  upper : str -> str
}.

(** The case mappings restricted to ASCII letters, for running the model on
    ASCII inputs. *)
Definition ascii_lower_char (c : char) : char :=
  if ((65 <=? c) && (c <=? 90))%N then (c + 32)%N else c.
Definition ascii_upper_char (c : char) : char :=
  if ((97 <=? c) && (c <=? 122))%N then (c - 32)%N else c.

#[export] Instance ascii_case : CaseMap := {|
  lower := map ascii_lower_char;
  upper := map ascii_upper_char
|}.

(* ================================================================== *)
(** ** Python values and exceptions *)
(* ================================================================== *)

(** A [float] read from a decimal literal is kept as the exact decimal
    [m * 10^e]; the non-finite constants [json.loads] accepts are kept
    apart. *)
Inductive pyfloat :=
| FDec (m e : Z)
| FNaN
| FInf (negative : bool).

(** The values [json.loads] produces.  A [dict] keeps its keys in
    insertion order, each key once. *)
Inductive pyvalue :=
| PyNone
| PyBool (b : bool)
| PyInt (n : Z)
| PyFloat (f : pyfloat)
| PyStr (s : str)
| PyList (l : list pyvalue)
| PyDict (d : list (str * pyvalue)).



(** [d[k] = v] on a dict. *)
Fixpoint dict_set (d : list (str * pyvalue)) (k : str) (v : pyvalue)
  : list (str * pyvalue) :=
  match d with
  | [] => [(k, v)]
  | (k', v') :: r =>
      if str_eqb k' k then (k, v) :: r else (k', v') :: dict_set r k v
  end.

Fixpoint dict_lookup (d : list (str * pyvalue)) (k : str) : option pyvalue :=
  match d with
  | [] => None
  | (k', v) :: r => if str_eqb k' k then Some v else dict_lookup r k
  end.

(** [v == s] for a string [s]. *)
Definition eq_str (v : pyvalue) (s : str) : bool :=
  match v with
  | PyStr t => str_eqb t s
  | _ => false
  end.

(** Exceptions.  The ones the analyser raises itself are told apart by the
    [raise] statement they come from and carry the values its message
    formats; the two handlers that re-raise with [str(e)] wrap their
    cause. *)
Inductive exn :=
| JSONDecodeError                 (* json.loads, response.json() *)
| AttributeError                  (* .get on an object that has none *)
| KeyError (key : str)            (* d[k] with k missing *)
| TypeError                       (* len, subscript or iteration of a wrong type *)
| RequestException                (* requests.post / requests.get fault *)
| OSError                         (* open(pdf_path) *)
| APIError                        (* the chat-completion call *)
| CredentialsNotFound
    (* Azure Document Intelligence credentials not found. ... *)
| AuthenticationFailed (status_code : Z) (text : str)
    (* Authentication failed. ... Status: {status_code}, Response: {text} *)
| FailedToStartAnalysis (status_code : Z) (text : str)
    (* Failed to start analysis: Status: {status_code}, Response: {text} *)
| NoOperationLocation
    (* No operation location returned *)
| FailedToGetResults (status_code : Z) (text : str)
    (* Failed to get results: {status_code} - {text} *)
| AnalysisFailed (error : pyvalue)
    (* Analysis failed: {error} *)
| UnknownStatus (status : pyvalue)
    (* Unknown status: {status} *)
| AnalysisTimedOut
    (* Analysis timed out *)
| ErrorExtractingText (cause : exn)
    (* Error extracting text from PDF: {str(e)} *)
| ErrorAnalyzing (cause : exn).
    (* Error analyzing resume with GPT-4o: {str(e)} *)

Inductive result (A : Type) :=
| Ok (a : A)
| Raise (e : exn).
Arguments Ok {A} a.
Arguments Raise {A} e.

Definition bind {A B} (r : result A) (k : A -> result B) : result B :=
  match r with
  | Ok a => k a
  | Raise e => Raise e
  end.

Notation "x <- c ;; k" := (bind c (fun x => k))
  (at level 61, c at next level, right associativity).

(** [obj.get(k, default)]: defined on dicts only. *)
Definition py_get (v : pyvalue) (k : str) (default : pyvalue)
  : result pyvalue :=
  match v with
  | PyDict d => Ok (match dict_lookup d k with
                    | Some x => x
                    | None => default
                    end)
  | _ => Raise AttributeError
  end.

(** [obj[k]] for a string key [k]. *)
Definition py_getitem (v : pyvalue) (k : str) : result pyvalue :=
  match v with
  | PyDict d => match dict_lookup d k with
                | Some x => Ok x
                | None => Raise (KeyError k)
                end
  | _ => Raise TypeError
  end.

(** [len(v)] *)
Definition py_len (v : pyvalue) : result Z :=
  match v with
  | PyStr s => Ok (len s)
  | PyList l => Ok (Z.of_nat (length l))
  | PyDict d => Ok (Z.of_nat (length d))
  | _ => Raise TypeError
  end.

(** The sequence [for x in v] runs over. *)
Definition py_iter (v : pyvalue) : result (list pyvalue) :=
  match v with
  | PyList l => Ok l
  | PyDict d => Ok (map (fun kv => PyStr (fst kv)) d)
  | PyStr s => Ok (map (fun c => PyStr [c]) s)
  | _ => Raise TypeError
  end.

(* ================================================================== *)
(** ** [json.loads] *)
(* ================================================================== *)

(** The decoder of Python's [json] module with its default settings, as a
    lexer and a pushdown parser that each read their input once, left to
    right.  Limits of the interpreter (recursion depth, the digit limit of
    [int]) are not modelled. *)

Inductive token :=
| TLBrace | TRBrace | TLBrack | TRBrack | TComma | TColon
| TString (s : str)
| TAtom (v : pyvalue).

Definition is_json_ws (c : char) : bool :=
  ((c =? 32) || (c =? 9) || (c =? 10) || (c =? 13))%N.

Definition is_digit (c : char) : bool := ((48 <=? c) && (c <=? 57))%N.

(** Characters of numbers and of the literal names. *)
Definition is_atom_char (c : char) : bool :=
  (is_digit c || (65 <=? c) && (c <=? 90) || (97 <=? c) && (c <=? 122)
   || (c =? 43) || (c =? 45) || (c =? 46))%N.

Fixpoint span_digits (s : str) : str * str :=
  match s with
  | [] => ([], [])
  | c :: r => if is_digit c
              then let '(d, r') := span_digits r in (c :: d, r')
              else ([], s)
  end.

Definition digits_value (ds : str) : Z :=
  fold_left (fun a c => 10 * a + (Z.of_N c - 48)) ds 0.

(** [0] or a non-empty digit string without a leading zero. *)
Definition valid_int_part (ds : str) : bool :=
  match ds with
  | [] => false
  | [_] => true
  | c :: _ => negb (c =? 48)%N
  end.

(** A number: an optional minus sign, an integer part, an optional
    fraction (a dot and digits) and an optional exponent ([e] or [E], an
    optional sign, digits), matched against the whole of [s].  Without
    fraction and exponent the value is an [int]. *)
Definition parse_number (s : str) : option pyvalue :=
  let '(neg, s1) := match s with
                    | 45%N :: r => (true, r)
                    | _ => (false, s)
                    end in
  let '(ip, s2) := span_digits s1 in
  let '(frac, s3) :=
    match s2 with
    | 46%N :: r => let '(fp, r') := span_digits r in
                   match fp with
                   | [] => (None, s2)
                   | _ => (Some fp, r')
                   end
    | _ => (None, s2)
    end in
  let '(expo, s4) :=
    match s3 with
    | c :: r =>
        if ((c =? 101) || (c =? 69))%N then
          let '(sg, r1) := match r with
                           | 43%N :: r' => (1, r')
                           | 45%N :: r' => (-1, r')
                           | _ => (1, r)
                           end in
          let '(ep, r2) := span_digits r1 in
          match ep with
          | [] => (None, s3)
          | _ => (Some (sg * digits_value ep), r2)
          end
        else (None, s3)
    | [] => (None, s3)
    end in
  let sign := if neg : bool then -1 else 1 in
  if negb (valid_int_part ip) then None
  else match s4 with
       | _ :: _ => None
       | [] =>
           match frac, expo with
           | None, None => Some (PyInt (sign * digits_value ip))
           | _, _ =>
               let fp := match frac with Some f => f | None => [] end in
               let e := match expo with Some e => e | None => 0 end in
               Some (PyFloat (FDec (sign * digits_value (ip ++ fp))
                                   (e - len fp)))
           end
       end.

Definition classify_atom (s : str) : option pyvalue :=
  if str_eqb s (py "null") then Some PyNone
  else if str_eqb s (py "true") then Some (PyBool true)
  else if str_eqb s (py "false") then Some (PyBool false)
  else if str_eqb s (py "NaN") then Some (PyFloat FNaN)
  else if str_eqb s (py "Infinity") then Some (PyFloat (FInf false))
  else if str_eqb s (py "-Infinity") then Some (PyFloat (FInf true))
  else parse_number s.

Definition hex_value (c : char) : option N :=
  (if is_digit c then Some (c - 48)
   else if (97 <=? c) && (c <=? 102) then Some (c - 87)
   else if (65 <=? c) && (c <=? 70) then Some (c - 55)
   else None)%N.

(** The one-letter escapes: quote, backslash, slash, b, f, n, r, t. *)
Definition simple_escape (c : char) : option char :=
  (if c =? 34 then Some 34
   else if c =? 92 then Some 92
   else if c =? 47 then Some 47
   else if c =? 98 then Some 8
   else if c =? 102 then Some 12
   else if c =? 110 then Some 10
   else if c =? 114 then Some 13
   else if c =? 116 then Some 9
   else None)%N.

Definition is_high_surrogate (u : N) : bool :=
  ((55296 <=? u) && (u <=? 56319))%N.
Definition is_low_surrogate (u : N) : bool :=
  ((56320 <=? u) && (u <=? 57343))%N.
Definition join_surrogates (h l : N) : N :=
  (65536 + ((h - 55296) * 1024 + (l - 56320)))%N.

(** Lexer states.  Accumulators are reversed.  [hi] is a high surrogate
    that the [\u] escape just read produced: it joins a low surrogate when
    the next thing in the string is the [\u] escape of one. *)
Inductive lex_state :=
| LStart
| LAtom (acc : str)
| LStr (acc : str) (hi : option N)
| LEsc (acc : str) (hi : option N)
| LHex (acc : str) (hi : option N) (k : nat) (n : N).

Definition push_hi (hi : option N) (acc : str) : str :=
  match hi with
  | Some h => h :: acc
  | None => acc
  end.

Definition lex_start (c : char) : option (lex_state * list token) :=
  (if is_json_ws c then Some (LStart, [])
   else if c =? 123 then Some (LStart, [TLBrace])
   else if c =? 125 then Some (LStart, [TRBrace])
   else if c =? 91 then Some (LStart, [TLBrack])
   else if c =? 93 then Some (LStart, [TRBrack])
   else if c =? 44 then Some (LStart, [TComma])
   else if c =? 58 then Some (LStart, [TColon])
   else if c =? 34 then Some (LStr [] None, [])
   else if is_atom_char c then Some (LAtom [c], [])
   else None)%N.

Definition after_unicode (acc : str) (hi : option N) (u : N) : lex_state :=
  match hi with
  | Some h =>
      if is_low_surrogate u then LStr (join_surrogates h u :: acc) None
      else if is_high_surrogate u then LStr (h :: acc) (Some u)
      else LStr (u :: h :: acc) None
  | None =>
      if is_high_surrogate u then LStr acc (Some u)
      else LStr (u :: acc) None
  end.

(** [out] holds the tokens read so far, reversed. *)
Fixpoint lex (st : lex_state) (out : list token) (s : str)
  : option (list token) :=
  match s with
  | [] =>
      match st with
      | LStart => Some (rev out)
      | LAtom acc =>
          match classify_atom (rev acc) with
          | Some v => Some (rev (TAtom v :: out))
          | None => None
          end
      | _ => None
      end
  | c :: r =>
      match st with
      | LStart =>
          match lex_start c with
          | Some (st', emit) => lex st' (emit ++ out) r
          | None => None
          end
      | LAtom acc =>
          if is_atom_char c then lex (LAtom (c :: acc)) out r
          else match classify_atom (rev acc), lex_start c with
               | Some v, Some (st', emit) =>
                   lex st' (emit ++ TAtom v :: out) r
               | _, _ => None
               end
      | LStr acc hi =>
          if (c =? 92)%N then lex (LEsc acc hi) out r
          else if (c =? 34)%N
               then lex LStart (TString (rev (push_hi hi acc)) :: out) r
          else if (c <? 32)%N then None
          else lex (LStr (c :: push_hi hi acc) None) out r
      | LEsc acc hi =>
          if (c =? 117)%N then lex (LHex acc hi 0 0%N) out r
          else match simple_escape c with
               | Some v => lex (LStr (v :: push_hi hi acc) None) out r
               | None => None
               end
      | LHex acc hi k n =>
          match hex_value c with
          | None => None
          | Some d =>
              let n' := (16 * n + d)%N in
              match k with
              | 3%nat => lex (after_unicode acc hi n') out r
              | _ => lex (LHex acc hi (S k) n') out r
              end
          end
      end
  end.

(** Parser: a stack of the containers being read and what may come next. *)
Inductive frame :=
| FArr (acc : list pyvalue)                      (* items so far, reversed *)
| FObj (acc : list (str * pyvalue)) (key : str). (* reading the value of key *)

Inductive mode :=
| MValue                                   (* a value *)
| MArrStart                                (* after [: a value or ] *)
| MObjStart                                (* after {: a key or } *)
| MKey (acc : list (str * pyvalue))        (* after , in an object: a key *)
| MColon (acc : list (str * pyvalue)) (key : str)
| MAfter (v : pyvalue).                    (* v is complete *)

Definition parse_step (st : list frame) (m : mode) (t : token)
  : option (list frame * mode) :=
  match m with
  | MValue =>
      match t with
      | TString s => Some (st, MAfter (PyStr s))
      | TAtom v => Some (st, MAfter v)
      | TLBrack => Some (FArr [] :: st, MArrStart)
      | TLBrace => Some (st, MObjStart)
      | _ => None
      end
  | MArrStart =>
      match t with
      | TString s => Some (st, MAfter (PyStr s))
      | TAtom v => Some (st, MAfter v)
      | TLBrack => Some (FArr [] :: st, MArrStart)
      | TLBrace => Some (st, MObjStart)
      | TRBrack => match st with
                   | FArr _ :: st' => Some (st', MAfter (PyList []))
                   | _ => None
                   end
      | _ => None
      end
  | MObjStart =>
      match t with
      | TRBrace => Some (st, MAfter (PyDict []))
      | TString k => Some (st, MColon [] k)
      | _ => None
      end
  | MKey acc =>
      match t with
      | TString k => Some (st, MColon acc k)
      | _ => None
      end
  | MColon acc k =>
      match t with
      | TColon => Some (FObj acc k :: st, MValue)
      | _ => None
      end
  | MAfter v =>
      match st, t with
      | FArr acc :: st', TComma => Some (FArr (v :: acc) :: st', MValue)
      | FArr acc :: st', TRBrack =>
          Some (st', MAfter (PyList (rev (v :: acc))))
      | FObj acc k :: st', TComma => Some (st', MKey (dict_set acc k v))
      | FObj acc k :: st', TRBrace =>
          Some (st', MAfter (PyDict (dict_set acc k v)))
      | _, _ => None
      end
  end.

Fixpoint parse_go (st : list frame) (m : mode) (ts : list token)
  : option pyvalue :=
  match ts with
  | [] => match st, m with
          | [], MAfter v => Some v
          | _, _ => None
          end
  | t :: r => match parse_step st m t with
              | Some (st', m') => parse_go st' m' r
              | None => None
              end
  end.

(** [json.loads(s)] *)
Definition json_loads (s : str) : result pyvalue :=
  match lex LStart [] s with
  | None => Raise JSONDecodeError
  | Some ts => match parse_go [] MValue ts with
               | Some v => Ok v
               | None => Raise JSONDecodeError
               end
  end.

(* ================================================================== *)
(** ** Decoding the model's reply: [analyze_resume_with_gpt4o] *)
(* ================================================================== *)



Fixpoint from_first (c : char) (s : str) : option str :=
  match s with
  | [] => None
  | x :: r => if N.eqb x c then Some s else from_first c r
  end.









(* ================================================================== *)
(** ** Building the record: [analyze_resume] *)
(* ================================================================== *)

(** The dataclasses check no types: a field holds whatever it is given. *)
Record SkillMatch := {
  skill : pyvalue;
  relevance_score : pyvalue;
  category : pyvalue
}.

Record ResumeAnalysis := {
  extracted_text : pyvalue;
  skills : list SkillMatch;
  role_match_score : pyvalue;
  strengths : pyvalue;
  gaps : pyvalue;
  recommendations : pyvalue;
  summary : pyvalue
}.

Definition make_skill (sk : pyvalue) : result SkillMatch :=
  s <- py_getitem sk (py "skill") ;;
  r <- py_getitem sk (py "relevance_score") ;;
  c <- py_getitem sk (py "category") ;;
  Ok {| skill := s; relevance_score := r; category := c |}.

Fixpoint make_skills (l : list pyvalue) : result (list SkillMatch) :=
  match l with
  | [] => Ok []
  | sk :: r => x <- make_skill sk ;; xs <- make_skills r ;; Ok (x :: xs)
  end.

(** Lines 461-478. *)
Definition build_analysis (text : pyvalue) (gpt_analysis : pyvalue)
  : result ResumeAnalysis :=
  sv <- py_get gpt_analysis (py "skills") (PyList []) ;;
  it <- py_iter sv ;;
  sks <- make_skills it ;;
  score <- py_get gpt_analysis (py "role_match_score") (PyFloat (FDec 0 0)) ;;
  st <- py_get gpt_analysis (py "strengths") (PyList []) ;;
  gp <- py_get gpt_analysis (py "gaps") (PyList []) ;;
  rc <- py_get gpt_analysis (py "recommendations") (PyList []) ;;
  sm <- py_get gpt_analysis (py "summary") (PyStr []) ;;
  Ok {| extracted_text := text; skills := sks; role_match_score := score;
        strengths := st; gaps := gp; recommendations := rc; summary := sm |}.





(* ================================================================== *)
(** ** Section segmentation: [extract_structured_content] *)
(* ================================================================== *)

(** What the function reads of the SDK's result object.  [None] stands for
    an attribute that is absent or [None]. *)
Record DocumentPage := {
  lines : option (list str)          (* the [content] of each line *)
}.

Record AnalyzeResult := {
  content : option str;
  pages : option (list DocumentPage)
}.

Definition section_keywords : list str :=
  [py "work experience"; py "experience"; py "employment";
   py "professional experience";
   py "education"; py "academic background"; py "qualifications";
   py "skills"; py "technical skills"; py "core competencies"; py "expertise";
   py "projects"; py "key projects"; py "notable projects";
   py "certifications"; py "certificates"; py "achievements";
   py "summary"; py "profile"; py "objective"; py "about";
   py "contact"; py "personal information"].

(** The bullet character U+2022. *)
Definition bullet : str := [8226%N].

(** The state of the loop over the lines of a page. *)
Record seg_state := {
  structured_sections : list str;
  current_section : option str;
  current_paragraph : list str
}.

Definition nonempty (s : str) : bool :=
  match s with
  | [] => false
  | _ :: _ => true
  end.

(** Truth value of [current_section], which is [None] or a string. *)
Definition section_set (cs : option str) : bool :=
  match cs with
  | Some s => nonempty s
  | None => false
  end.

(** [if current_section: structured_sections.append(current_section)] *)
Definition append_section (sections : list str) (cs : option str) : list str :=
  match cs with
  | Some s => if nonempty s then sections ++ [s] else sections
  | None => sections
  end.

(** [current_section += extra], done under [if current_section]. *)
Definition section_add (cs : option str) (extra : str) : option str :=
  match cs with
  | Some s => Some (s ++ extra)
  | None => None
  end.

Section Segmenter.
Context {cm : CaseMap}.

Definition is_section_header (line_text : str) : bool :=
  existsb (fun keyword => contains keyword (lower line_text)) section_keywords.

Definition is_likely_header (line_text : str) : bool :=
  (length (split line_text) <=? 4)%nat &&
  negb (endswith line_text (py ".")) &&
  negb (startswith line_text bullet) &&
  negb (startswith line_text (py "-")).

Definition is_header (line_text : str) : bool :=
  is_section_header line_text || is_likely_header line_text.

(** The decorated header a new section starts with. *)
Definition section_title (line_text : str) : str :=
  LF ++ LF ++ py "=== " ++ upper line_text ++ py " ===" ++ LF.

(** One iteration of [for line in page.lines]. *)
Definition line_step (st : seg_state) (line : str) : seg_state :=
  let line_text := strip line in
  match line_text with
  | [] =>
      match current_paragraph st with
      | [] => st
      | para =>
          {| structured_sections := structured_sections st;
             current_section :=
               if section_set (current_section st)
               then section_add (current_section st)
                                (py " " ++ join (py " ") para)
               else current_section st;
             current_paragraph := [] |}
      end
  | _ =>
      if is_header line_text then
        let cs :=
          if section_set (current_section st)
             && negb (length (current_paragraph st) =? 0)%nat
          then section_add (current_section st)
                           (py " " ++ join (py " ") (current_paragraph st))
          else current_section st in
        {| structured_sections := append_section (structured_sections st) cs;
           current_section := Some (section_title line_text);
           current_paragraph := [] |}
      else
        let para := current_paragraph st ++ [line_text] in
        if endswith line_text (py ".") || endswith line_text (py ":")
           || (3 <? length para)%nat
        then
          {| structured_sections := structured_sections st;
             current_section :=
               if section_set (current_section st)
               then section_add (current_section st)
                                (py " " ++ join (py " ") para ++ LF)
               else current_section st;
             current_paragraph := [] |}
        else
          {| structured_sections := structured_sections st;
             current_section := current_section st;
             current_paragraph := para |}
  end.

(** After the loop: the last section. *)
Definition finish_page (st : seg_state) : list str :=
  let cs :=
    if section_set (current_section st)
       && negb (length (current_paragraph st) =? 0)%nat
    then section_add (current_section st)
                     (py " " ++ join (py " ") (current_paragraph st))
    else current_section st in
  append_section (structured_sections st) cs.

(** The body of [for page in result.pages], from the sections found so
    far to the sections found after the page. *)
Definition page_step (sections : list str) (page : DocumentPage) : list str :=
  match lines page with
  | Some ls =>
      match ls with
      | [] => sections
      | _ :: _ =>
          finish_page
            (fold_left line_step ls
               {| structured_sections := sections;
                  current_section := None;
                  current_paragraph := [] |})
      end
  | None => sections
  end.

Definition segment_pages (ps : list DocumentPage) : list str :=
  fold_left page_step ps [].

(** [extract_structured_content].  Nothing in the body raises, so the
    handler that returns the raw content is not reached. *)
Definition extract_structured_content (result : AnalyzeResult) : str :=
  let raw := match content result with
             | Some c => c
             | None => []
             end in
  let sections := match pages result with
                  | Some ps => segment_pages ps
                  | None => []
                  end in
  match sections with
  | [] => raw
  | _ => join LF sections
  end.

End Segmenter.

(* ================================================================== *)
(** ** REST extraction: [extract_text_from_pdf_rest] *)
(* ================================================================== *)

(** What the function reads of a [requests] response: the status code, the
    body text, the [Operation-Location] header and the outcome of
    [response.json()]. *)
Record HttpResponse := {
  status_code : Z;
  text : str;
  operation_location : option str;
  json : result pyvalue
}.

(** What the function does to the outside world, in order. *)
Inductive event :=
| Post (url : str) (data : str)
| Get (url : str)
| Sleep (seconds : Z).

(** The number of requests sent so far and everything done so far. *)
Record World := {
  issued : nat;
  trace : list event
}.

Definition initial_world : World := {| issued := 0; trace := [] |}.

(** A computation that may raise and acts on the world. *)
Definition M (A : Type) : Type := World -> result A * World.

Definition ret {A} (a : A) : M A := fun w => (Ok a, w).
Definition raise {A} (e : exn) : M A := fun w => (Raise e, w).
Definition lift {A} (r : result A) : M A := fun w => (r, w).

Definition bindM {A B} (m : M A) (k : A -> M B) : M B :=
  fun w => match m w with
           | (Ok a, w') => k a w'
           | (Raise e, w') => (Raise e, w')
           end.

Notation "x <~ c ;; k" := (bindM c (fun x => k))
  (at level 61, c at next level, right associativity).

(** [try: body  except Exception as e: raise Exception(... str(e))] *)
Definition reraise_as {A} (wrap : exn -> exn) (body : M A) : M A :=
  fun w => match body w with
           | (Raise e, w') => (Raise (wrap e), w')
           | r => r
           end.

Definition api_versions : list str :=
  [py "2024-02-29-preview"; py "2023-07-31"; py "2022-08-31"].

Definition analyze_url (endpoint api_version : str) : str :=
  endpoint
  ++ py "/documentintelligence/documentModels/prebuilt-read:analyze?api-version="
  ++ api_version.

Definition legacy_url (endpoint : str) : str :=
  endpoint
  ++ py "/formrecognizer/documentModels/prebuilt-read:analyze?api-version=2022-08-31".

(** Truth value of an optional string ([None] or a string). *)
Definition opt_truthy (o : option str) : bool :=
  match o with
  | Some s => nonempty s
  | None => false
  end.

Definition max_attempts : nat := 30.

Section Gateway.

(** The service: the outcome of the n-th request sent, a response or the
    exception [requests] raises. *)
Variable net : nat -> result HttpResponse.

Definition send (e : event) : M HttpResponse :=
  fun w => (net (issued w),
            {| issued := S (issued w); trace := trace w ++ [e] |}).

(** [requests.post(url, headers=headers, data=data)] *)
Definition requests_post (url data : str) : M HttpResponse :=
  send (Post url data).

(** [requests.get(url, headers=headers_get)] *)
Definition requests_get (url : str) : M HttpResponse := send (Get url).

(** [time.sleep(seconds)] *)
Definition time_sleep (seconds : Z) : M unit :=
  fun w => (Ok tt, {| issued := issued w; trace := trace w ++ [Sleep seconds] |}).

(** The [for api_version in api_versions: ... else: ...] statement; its
    value is the variable [response] after it.  The branches for 401 and
    for the other statuses differ in what they print only. *)
Fixpoint try_versions (endpoint pdf_data : str) (versions : list str)
  : M HttpResponse :=
  match versions with
  | [] => requests_post (legacy_url endpoint) pdf_data
  | api_version :: rest =>
      response <~ requests_post (analyze_url endpoint api_version) pdf_data ;;
      if status_code response =? 202 then ret response
      else if status_code response =? 401
           then try_versions endpoint pdf_data rest
           else try_versions endpoint pdf_data rest
  end.

(** Lines 264-298: from the submissions to the operation location. *)
Definition start_analysis (endpoint pdf_data : str) : M str :=
  response <~ try_versions endpoint pdf_data api_versions ;;
  if negb (status_code response =? 202) then
    if status_code response =? 401
    then raise (AuthenticationFailed (status_code response) (text response))
    else raise (FailedToStartAnalysis (status_code response) (text response))
  else
    match operation_location response with
    | Some location =>
        if nonempty location then ret location else raise NoOperationLocation
    | None => raise NoOperationLocation
    end.

(** Lines 323-326: the payload of a result whose status is succeeded. *)
Definition succeeded_content (result_data : pyvalue) : result pyvalue :=
  analyze_result <- py_get result_data (py "analyzeResult") (PyDict []) ;;
  content <- py_get analyze_result (py "content") (PyStr []) ;;
  _ <- py_len content ;;
  Ok content.

(** One reading of the status, lines 313-333.  [None] is [continue]. *)
Definition poll_response (result_response : HttpResponse)
  : result (option pyvalue) :=
  if negb (status_code result_response =? 200) then
    Raise (FailedToGetResults (status_code result_response)
                              (text result_response))
  else
    result_data <- json result_response ;;
    status <- py_get result_data (py "status") PyNone ;;
    if eq_str status (py "succeeded") then
      content <- succeeded_content result_data ;;
      Ok (Some content)
    else if eq_str status (py "failed") then
      error <- py_get result_data (py "error") (PyDict []) ;;
      Raise (AnalysisFailed error)
    else if eq_str status (py "running") || eq_str status (py "notStarted")
    then Ok None
    else Raise (UnknownStatus status).

(** [for attempt in range(max_attempts): ...] followed by the timeout;
    [attempts] is the number of iterations left. *)
Fixpoint poll (location : str) (attempts : nat) : M pyvalue :=
  match attempts with
  | O => raise AnalysisTimedOut
  | S n =>
      _ <~ time_sleep 2 ;;
      result_response <~ requests_get location ;;
      outcome <~ lift (poll_response result_response) ;;
      match outcome with
      | Some content => ret content
      | None => poll location n
      end
  end.

(** [extract_text_from_pdf_rest].  [pdf] is the outcome of reading the
    file at [pdf_path]. *)
Definition extract_text_from_pdf_rest (di_key di_endpoint : option str)
  (pdf : result str) : M pyvalue :=
  reraise_as ErrorExtractingText
    (if negb (opt_truthy di_key) || negb (opt_truthy di_endpoint)
     then raise CredentialsNotFound
     else
       pdf_data <~ lift pdf ;;
       let endpoint :=
         rstrip_char 47%N (match di_endpoint with Some e => e | None => [] end) in
       location <~ start_analysis endpoint pdf_data ;;
       poll location max_attempts).

End Gateway.

(** A scripted service: the listed outcomes in order, then faults. *)
Definition script (rs : list (result HttpResponse)) : nat -> result HttpResponse :=
  fun n => nth n rs (Raise RequestException).

Definition response (code : Z) (body : str) : result HttpResponse :=
  Ok {| status_code := code; text := body; operation_location := None;
        json := json_loads body |}.

Definition accepted (location : str) : result HttpResponse :=
  Ok {| status_code := 202; text := []; operation_location := Some location;
        json := json_loads [] |}.

(* ================================================================== *)
(** ** Vocabulary of the properties *)
(* ================================================================== *)

(** [sub] occurs in [s]. *)
Definition infix (sub s : str) : Prop := exists a b, s = a ++ sub ++ b.







Definition has_key (d : list (str * pyvalue)) (k : str) : bool :=
  match dict_lookup d k with
  | Some _ => true
  | None => false
  end.

(** An object with the three keys of a skill. *)
Definition skill_shaped (v : pyvalue) : bool :=
  match v with
  | PyDict d => has_key d (py "skill") && has_key d (py "relevance_score")
                && has_key d (py "category")
  | _ => false
  end.



Definition is_post (e : event) : bool :=
  match e with Post _ _ => true | _ => false end.
Definition is_get (e : event) : bool :=
  match e with Get _ => true | _ => false end.

Definition posts_of (tr : list event) : list event := filter is_post tr.
Definition count_gets (tr : list event) : nat := length (filter is_get tr).

(** [m] polls of [location]: a two-second sleep, then the request. *)
Definition polls (location : str) (m : nat) : list event :=
  concat (repeat [Sleep 2; Get location] m).

(** The world after [m] more polls of [loc]. *)
Definition polled (loc : str) (w : World) (m : nat) : World :=
  {| issued := issued w + m; trace := trace w ++ polls loc m |}.

(** A submission answered with a status other than 202. *)
Definition rejected (o : result HttpResponse) : Prop :=
  exists r, o = Ok r /\ status_code r <> 202.

(** A poll answered 200 with status running or notStarted. *)
Definition still_running (o : result HttpResponse) : Prop :=
  exists r d, o = Ok r /\ status_code r = 200 /\ json r = Ok (PyDict d) /\
    (dict_lookup d (py "status") = Some (PyStr (py "running")) \/
     dict_lookup d (py "status") = Some (PyStr (py "notStarted"))).

(** The REST extraction run from the start, with credentials [key] and
    [ep] and the bytes [pdf_data] of the file. *)
Definition rest_run (net : nat -> result HttpResponse)
  (key ep pdf_data : str) : result pyvalue * World :=
  extract_text_from_pdf_rest net (Some key) (Some ep) (Ok pdf_data)
    initial_world.

(** The submission to one API version. *)
Definition submission (ep pdf_data api_version : str) : event :=
  Post (analyze_url (rstrip_char 47%N ep) api_version) pdf_data.

(** The submission to the legacy endpoint. *)
Definition legacy_submission (ep pdf_data : str) : event :=
  Post (legacy_url (rstrip_char 47%N ep)) pdf_data.

Definition from_option (o : option pyvalue) (default : pyvalue) : pyvalue :=
  match o with
  | Some v => v
  | None => default
  end.

(* ================================================================== *)
(** ** Concrete inputs *)
(* ================================================================== *)

(** The state a page starts in. *)
Definition state0 : seg_state :=
  {| structured_sections := []; current_section := None;
     current_paragraph := [] |}.



Definition example_key : str := py "0123456789abcdef".
Definition example_endpoint : str := py "https://di.example/".
Definition example_pdf : str := py "%PDF-1.7".
Definition example_location : str := py "https://di.example/operations/1".

Definition running : result HttpResponse :=
  response 200 (pyq "{'status': 'running'}").

(** A service that accepts the first submission and then answers every
    poll with status running. *)
Definition net_always_running (n : nat) : result HttpResponse :=
  match n with
  | O => accepted example_location
  | S _ => running
  end.

(** The second version is accepted; the second poll succeeds. *)
Definition net_second_version : nat -> result HttpResponse :=
  script [response 404 (py "not found"); accepted example_location; running;
          response 200
            (pyq "{'status': 'succeeded', 'analyzeResult': {'content': 'hi'}}")].

(** The second poll is answered with status code 500. *)
Definition net_poll_500 : nat -> result HttpResponse :=
  script [accepted example_location; running; response 500 (py "oops")].

Definition bad_request : HttpResponse :=
  {| status_code := 400; text := py "bad"; operation_location := None;
     json := Raise JSONDecodeError |}.

(** Two services that reject every submission with different statuses and
    answer the legacy submission alike. *)
Definition net_rejecting_a : nat -> result HttpResponse :=
  script [response 404 (py "a"); response 500 (py "b"); response 403 (py "c");
          Ok bad_request].
Definition net_rejecting_b : nat -> result HttpResponse :=
  script [response 429 (py "d"); response 503 (py "e"); response 502 (py "f");
          Ok bad_request].

(* ================================================================== *)
(** ** The target role of a chat message: [extract_target_role] *)
(* ================================================================== *)

Definition role_indicators : list str :=
  [py "for"; py "as"; py "position"; py "role"; py "job"; py "analyze";
   py "evaluate"].

Definition prefixes_to_remove : list str :=
  [py "analyze this resume for"; py "analyze for"; py "evaluate for";
   py "check for"; py "how well does this fit"; py "analyze this for"].

Definition suffixes_to_remove : list str :=
  [py "position"; py "role"; py "job"; py "candidate"].

Section TargetRole.
Context {cm : CaseMap}.

(** The loop over the prefixes: the first one the lowercased text starts
    with is cut off, by its length, and the loop ends. *)
Fixpoint remove_prefix (prefixes : list str) (cleaned : str) : str :=
  match prefixes with
  | [] => cleaned
  | prefix :: rest =>
      if startswith (lower cleaned) prefix
      then strip (slice cleaned (len prefix) (len cleaned))
      else remove_prefix rest cleaned
  end.

(** The loop over the suffixes. *)
Fixpoint remove_suffix (suffixes : list str) (cleaned : str) : str :=
  match suffixes with
  | [] => cleaned
  | suffix :: rest =>
      if endswith (lower cleaned) suffix
      then strip (slice cleaned 0 (- len suffix))
      else remove_suffix rest cleaned
  end.

(** [extract_target_role] of [chainlit_app.py]. *)
Definition extract_target_role (message_content : str) : option str :=
  if negb (nonempty message_content) || (len (strip message_content) <? 5)
  then None
  else
    let content_lower := lower message_content in
    if existsb (fun indicator => contains indicator content_lower)
               role_indicators
    then
      let cleaned :=
        remove_suffix suffixes_to_remove
          (remove_prefix prefixes_to_remove (strip message_content)) in
      if len cleaned >? 2 then Some cleaned else None
    else
      if len (strip message_content) >? 2
      then Some (strip message_content)
      else None.

End TargetRole.

(* ================================================================== *)
(** ** Vocabulary of the further properties *)
(* ================================================================== *)

(** What the two loops of [extract_target_role] keep: a stripped part of
    the text. *)
Definition stripped_part (r s : str) : Prop := strip r = r /\ infix r s.

(** The lines of a page that the segmenter treats as headers. *)
Definition header_lines {cm : CaseMap} (ls : list str) : list str :=
  filter (fun l => nonempty (strip l) && is_header (strip l)) ls.

(** The lines of a page, none when the page has no [lines]. *)
Definition page_lines (page : DocumentPage) : list str :=
  match lines page with
  | Some ls => ls
  | None => []
  end.

(** The header lines of a document, page after page. *)
Definition document_headers {cm : CaseMap} (ps : list DocumentPage)
  : list str :=
  flat_map (fun page => header_lines (page_lines page)) ps.

(** The section [s] stands under the header line [h]. *)
Definition section_of {cm : CaseMap} (h s : str) : Prop :=
  exists body, s = section_title (strip h) ++ body.

(** The segmenter's state after the header lines [hs]: the closed
    sections stand under the headers read, the open one under the last. *)
Definition seg_inv {cm : CaseMap} (hs : list str) (st : seg_state) : Prop :=
  match current_section st with
  | None => Forall2 section_of hs (structured_sections st)
  | Some c =>
      exists hs' h, hs = hs' ++ [h]
        /\ Forall2 section_of hs' (structured_sections st)
        /\ section_of h c
  end.

(** The entry of key [k] in an object, [None] for anything else. *)
Definition field (v : pyvalue) (k : str) : pyvalue :=
  match v with
  | PyDict d => from_option (dict_lookup d k) PyNone
  | _ => PyNone
  end.

(** The skill an entry of the reply's skills list stands for. *)
Definition skill_of (entry : pyvalue) : SkillMatch :=
  {| skill := field entry (py "skill");
     relevance_score := field entry (py "relevance_score");
     category := field entry (py "category") |}.

(* ================================================================== *)
(** ** The preferred path: [extract_text_from_pdf_sdk], [extract_text_from_pdf] *)
(* ================================================================== *)

(** Why the SDK path failed.  Its handler re-raises every exception with
    the text [Error extracting text from PDF using SDK:] before it; the
    caller catches that and only prints it. *)
Inductive sdk_failure :=
| SDKNotAvailable
    (* SDK not available, use extract_text_from_pdf_rest instead *)
| SDKRaised (cause : exn).

Section PreferredPath.
Context {cm : CaseMap}.

(** [extract_text_from_pdf_sdk].  [pdf] is the outcome of reading the
    file and [analyze] the outcome of [begin_analyze_document] followed by
    [poller.result()] for the bytes read.  What the function prints about
    styles, pages and word confidences is left out. *)
Definition extract_text_from_pdf_sdk (use_sdk : bool)
  (di_key di_endpoint : option str) (pdf : result str)
  (analyze : str -> result AnalyzeResult) : sdk_failure + str :=
  if negb use_sdk then inl SDKNotAvailable
  else if negb (opt_truthy di_key) || negb (opt_truthy di_endpoint)
  then inl (SDKRaised CredentialsNotFound)
  else match pdf with
       | Raise e => inl (SDKRaised e)
       | Ok pdf_data =>
           match analyze pdf_data with
           | Raise e => inl (SDKRaised e)
           | Ok result => inr (extract_structured_content result)
           end
       end.

(** [extract_text_from_pdf]: the SDK when the analyser uses it, and the
    REST API when it does not or when the SDK path raised. *)
Definition extract_text_from_pdf (net : nat -> result HttpResponse)
  (use_sdk : bool) (di_key di_endpoint : option str) (pdf : result str)
  (analyze : str -> result AnalyzeResult) : M pyvalue :=
  if use_sdk then
    match extract_text_from_pdf_sdk use_sdk di_key di_endpoint pdf analyze with
    | inr structured_content => ret (PyStr structured_content)
    | inl _ => extract_text_from_pdf_rest net di_key di_endpoint pdf
    end
  else extract_text_from_pdf_rest net di_key di_endpoint pdf.

End PreferredPath.

(* ================================================================== *)
(** ** The credentials check: [test_document_intelligence] *)
(* ================================================================== *)

Definition test_urls (endpoint : str) : list str :=
  [endpoint ++ py "/documentintelligence/documentModels?api-version=2024-02-29-preview";
   endpoint ++ py "/documentintelligence/documentModels?api-version=2023-07-31";
   endpoint ++ py "/formrecognizer/documentModels?api-version=2022-08-31"].

(** The loop over the URLs of [test_credentials.py]: the first answer with
    status 200 ends it with [True]; any other answer, and a
    [RequestException], passes to the next URL. *)
Fixpoint probe (net : nat -> result HttpResponse) (urls : list str)
  : M bool :=
  match urls with
  | [] => ret false
  | url :: rest =>
      fun w =>
        match requests_get net url w with
        | (Ok response, w') =>
            if status_code response =? 200 then (Ok true, w')
            else probe net rest w'
        | (Raise RequestException, w') => probe net rest w'
        | (Raise e, w') => (Raise e, w')
        end
  end.

(** [test_document_intelligence] *)
Definition test_document_intelligence (net : nat -> result HttpResponse)
  (di_key di_endpoint : option str) : M bool :=
  if negb (opt_truthy di_key) || negb (opt_truthy di_endpoint)
  then ret false
  else probe net
         (test_urls (rstrip_char 47%N
                       (match di_endpoint with Some e => e | None => [] end))).

(** Seconds slept in a trace. *)
Definition total_sleep (tr : list event) : Z :=
  fold_right (fun e acc => match e with Sleep s => s + acc | _ => acc end)
             0 tr.

(** A probe that is not answered with 200: another status, or a fault of
    the transport. *)
Definition probe_missed (o : result HttpResponse) : Prop :=
  (exists r, o = Ok r /\ status_code r <> 200) \/ o = Raise RequestException.

(* ================================================================== *)
(** ** Presentation: grouping by category and the score bars *)
(* ================================================================== *)

Section Grouping.
Context {A : Type}.

(** [if k not in d: d[k] = []] followed by [d[k].append(x)], on a dict
    kept in insertion order. *)
Fixpoint group_insert (groups : list (str * list A)) (k : str) (x : A)
  : list (str * list A) :=
  match groups with
  | [] => [(k, [x])]
  | (k', xs) :: r =>
      if str_eqb k' k then (k', xs ++ [x]) :: r
      else (k', xs) :: group_insert r k x
  end.

(** The loop that fills [skills_by_category], in [print_analysis] and in
    [send_detailed_breakdown], for skills whose category is a string, as
    the dataclass declares it. *)
Definition group_by_category (category : A -> str) (skills : list A)
  : list (str * list A) :=
  fold_left (fun groups s => group_insert groups (category s) s) skills [].

(** The value of the first entry with key [k]. *)
Fixpoint group_of (groups : list (str * list A)) (k : str)
  : option (list A) :=
  match groups with
  | [] => None
  | (k', xs) :: r => if str_eqb k' k then Some xs else group_of r k
  end.

End Grouping.

(** [s * n] for a string [s]: empty when [n] is not positive. *)
Definition str_times (s : str) (n : Z) : str := concat (repeat s (Z.to_nat n)).

(** The cells of the bars: U+1F7E9, U+1F7E6 and U+2B1C. *)
Definition green_square : str := [129001%N].
Definition blue_square : str := [128998%N].
Definition white_square : str := [11036%N].

(** [score_bar] of [format_analysis_results], from [score_percentage]. *)
Definition match_score_bar (score_percentage : Z) : str :=
  str_times green_square (score_percentage / 10)
  ++ str_times white_square (10 - score_percentage / 10).

(** [score_bar] of [send_detailed_breakdown], from [score_percentage]. *)
Definition skill_score_bar (score_percentage : Z) : str :=
  str_times blue_square (score_percentage / 20)
  ++ str_times white_square (5 - score_percentage / 20).

(* ================================================================== *)
(** ** The installation script: [install.py] *)
(* ================================================================== *)

(** The commands run so far.  [sh n] tells whether the n-th command run
    succeeds. *)
Definition Shell (A : Type) : Type := list str -> A * list str.

(** [run_command]: [True] when the command exits with status 0, [False]
    when [subprocess.run] raises [CalledProcessError]. *)
Definition run_command (sh : nat -> bool) (command : str) : Shell bool :=
  fun log => (sh (length log), log ++ [command]).

Definition core_deps : list str :=
  [py "python-dotenv"; py "numpy"; py "azure-core"; py "openai";
   py "chainlit"].

(** [for dep in core_deps: run_command(f"pip install {dep}", ...)] *)
Fixpoint install_deps (sh : nat -> bool) (deps : list str) : Shell unit :=
  match deps with
  | [] => fun log => (tt, log)
  | dep :: rest =>
      fun log =>
        let '(_, log') := run_command sh (py "pip install " ++ dep) log in
        install_deps sh rest log'
  end.

(** [main] of [install.py]; what it prints is left out. *)
Definition install_main (sh : nat -> bool) : Shell unit :=
  fun log =>
    let '(_, log1) :=
      run_command sh
        (py "python -m pip install --upgrade pip setuptools wheel") log in
    let '(_, log2) := install_deps sh core_deps log1 in
    let '(ok, log3) :=
      run_command sh (py "pip install azure-ai-documentintelligence") log2 in
    if negb ok then
      let '(_, log4) :=
        run_command sh (py "pip install --pre azure-ai-documentintelligence")
                    log3 in
      (tt, log4)
    else (tt, log3).

(** The state [st] with the sections [pre] before its own. *)
Definition with_prefix (pre : list str) (st : seg_state) : seg_state :=
  {| structured_sections := pre ++ structured_sections st;
     current_section := current_section st;
     current_paragraph := current_paragraph st |}.

(* ================================================================== *)
(** ** Further concrete inputs *)
(* ================================================================== *)

(** A page of plain prose, without any header. *)
Definition prose_page : AnalyzeResult :=
  {| content := Some (py "I build compilers and I verify them as well.");
     pages := Some [ {| lines := Some [py "I build compilers and I";
                                       py "verify them as well."] |} ] |}.


Definition go_entry : pyvalue :=
  PyDict [(py "skill", PyStr (py "Go"));
          (py "relevance_score", PyFloat (FDec 9 (-1)));
          (py "category", PyStr (py "technical"));
          (py "years", PyInt 3)].

Definition accepted_response : HttpResponse :=
  {| status_code := 202; text := [];
     operation_location := Some example_location; json := json_loads [] |}.


Definition html_response : HttpResponse :=
  {| status_code := 200; text := py "<html>"; operation_location := None;
     json := json_loads (py "<html>") |}.

Definition succeeded_bare : HttpResponse :=
  {| status_code := 200; text := pyq "{'status': 'succeeded'}";
     operation_location := None;
     json := json_loads (pyq "{'status': 'succeeded'}") |}.

Definition ok_response : HttpResponse :=
  {| status_code := 200; text := pyq "{'value': []}";
     operation_location := None; json := json_loads (pyq "{'value': []}") |}.

(** The first submission is rejected and the second one does not get
    through. *)
Definition net_fault : nat -> result HttpResponse :=
  script [response 404 (py "not found")].


Definition net_poll_html : nat -> result HttpResponse :=
  script [Ok accepted_response; Ok html_response].

Definition net_succeeded_bare : nat -> result HttpResponse :=
  script [Ok accepted_response; Ok succeeded_bare].

(** The first probe is not found, the second one answers. *)
Definition net_probe : nat -> result HttpResponse :=
  script [response 404 (py "not found"); Ok ok_response].

(** The world after one submission, to the newest version. *)
Definition after_first_submission : World :=
  {| issued := 1;
     trace := [submission example_endpoint example_pdf
                 (py "2024-02-29-preview")] |}.

(* ================================================================== *)
(** ** Strings *)
(* ================================================================== *)

Lemma str_eqb_eq (a b : str) : str_eqb a b = true <-> a = b.
Proof.
  revert b; induction a as [|x a IH]; intros [|y b]; simpl;
    try (split; [discriminate | discriminate]); try tauto.
  rewrite andb_true_iff, N.eqb_eq, IH.
  split; [intros [-> ->]; reflexivity | intros H; inversion H; auto].
Qed.

Lemma startswith_iff (s p : str) :
  startswith s p = true <-> exists r, s = p ++ r.
Proof.
  revert s; induction p as [|y p IH]; intros s; simpl.
  - split; [intros _; exists s; reflexivity | reflexivity].
  - destruct s as [|x s].
    + split; [discriminate | intros [r H]; discriminate].
    + rewrite andb_true_iff, N.eqb_eq, IH. split.
      * intros [-> [r ->]]. exists r. reflexivity.
      * intros [r H]. inversion H. split; [reflexivity | exists r; reflexivity].
Qed.

Lemma endswith_iff (s p : str) :
  endswith s p = true <-> exists r, s = r ++ p.
Proof.
  unfold endswith. rewrite startswith_iff. split.
  - intros [r H]. exists (rev r).
    rewrite <- (rev_involutive s), H, rev_app_distr, rev_involutive.
    reflexivity.
  - intros [r ->]. exists (rev r). apply rev_app_distr.
Qed.

Lemma contains_iff (sub s : str) : contains sub s = true <-> infix sub s.
Proof.
  unfold infix. induction s as [|x s IH]; simpl.
  - rewrite orb_false_r, startswith_iff. split.
    + intros [r H]. exists [], r. exact H.
    + intros [a [b H]]. destruct a; [exists b; exact H | discriminate].
  - rewrite orb_true_iff, startswith_iff, IH. split.
    + intros [[r H] | [a [b H]]].
      * exists [], r. exact H.
      * exists (x :: a), b. simpl. rewrite H. reflexivity.
    + intros [[|y a] [b H]].
      * left. exists b. exact H.
      * right. inversion H. exists a, b. reflexivity.
Qed.



Lemma infix_refl (t : str) : infix t t.
Proof. exists [], []. rewrite app_nil_r. reflexivity. Qed.


(* ================================================================== *)
(** ** Section segmentation *)
(* ================================================================== *)

Section SegmenterProofs.
Context {cm : CaseMap}.
#[local] Arguments py : simpl never.
#[local] Arguments join : simpl never.
#[local] Arguments section_title : simpl never.

Lemma is_section_header_iff (t : str) :
  is_section_header t = true <->
  exists keyword, In keyword section_keywords /\ infix keyword (lower t).
Proof.
  unfold is_section_header. rewrite existsb_exists.
  split; intros [k [H1 H2]]; exists k; split; auto; apply contains_iff; auto.
Qed.

Lemma is_likely_header_iff (t : str) :
  is_likely_header t = true <->
  (length (split t) <= 4)%nat
  /\ ~ (exists r, t = r ++ py ".")
  /\ ~ (exists r, t = bullet ++ r)
  /\ ~ (exists r, t = py "-" ++ r).
Proof.
  unfold is_likely_header.
  rewrite !andb_true_iff, !negb_true_iff, Nat.leb_le.
  rewrite <- !not_true_iff_false, endswith_iff, !startswith_iff.
  tauto.
Qed.


















End SegmenterProofs.

(** C9.  A non-blank line is treated as a section header exactly when its
    lowercased text contains one of the section keywords, or it has at most
    four words, does not end with a period and does not begin with a bullet
    or a hyphen; on such a line the segmenter closes the section that is
    open and starts a new one under the decorated, uppercased text, and on
    any other line it closes none. *)
Theorem header_classification {cm : CaseMap} (st : seg_state) (line : str) :
  strip line <> [] ->
  let line_text := strip line in
  (is_header line_text = true <->
   (exists keyword,
       In keyword section_keywords /\ infix keyword (lower line_text))
   \/ ((length (split line_text) <= 4)%nat
       /\ ~ (exists r, line_text = r ++ py ".")
       /\ ~ (exists r, line_text = bullet ++ r)
       /\ ~ (exists r, line_text = py "-" ++ r)))
  /\ (is_header line_text = true ->
      current_section (line_step st line) = Some (section_title line_text)
      /\ current_paragraph (line_step st line) = [])
  /\ (is_header line_text = false ->
      structured_sections (line_step st line) = structured_sections st).
Proof.
  intros Hb line_text. subst line_text. split; [|split].
  - unfold is_header.
    rewrite orb_true_iff, is_section_header_iff, is_likely_header_iff.
    reflexivity.
  - intros Hh. unfold line_step.
    destruct (strip line) as [|x t]; [congruence|]. rewrite Hh.
    split; reflexivity.
  - intros Hh. unfold line_step.
    destruct (strip line) as [|x t]; [congruence|]. rewrite Hh.
    match goal with |- context [if ?b then _ else _] => destruct b end;
      reflexivity.
Qed.

Lemma header_classification_witness :
  current_section (line_step state0 (py "  Technical Skills "))
  = Some (section_title (py "Technical Skills")).
Proof.
  apply (header_classification state0 (py "  Technical Skills ")).
  - vm_compute. discriminate.
  - vm_compute. reflexivity.
Defined.




(* ================================================================== *)
(** ** Searching and slicing *)
(* ================================================================== *)


Lemma len_app (a b : str) : len (a ++ b) = len a + len b.
Proof. unfold len. rewrite length_app. lia. Qed.










(* ================================================================== *)
(** ** Decoding the reply *)
(* ================================================================== *)




















(* ================================================================== *)
(** ** REST extraction *)
(* ================================================================== *)

Section GatewayProofs.
Variable net : nat -> result HttpResponse.
#[local] Arguments py : simpl never.

Lemma eq_str_iff (v : pyvalue) (s : str) : eq_str v s = true <-> v = PyStr s.
Proof.
  destruct v; simpl; try (split; [discriminate | discriminate]).
  rewrite str_eqb_eq. split; [intros ->; reflexivity | intros H; inversion H; auto].
Qed.

Lemma polls_S (loc : str) (m : nat) :
  polls loc (S m) = [Sleep 2; Get loc] ++ polls loc m.
Proof. reflexivity. Qed.

Lemma count_gets_app (a b : list event) :
  count_gets (a ++ b) = (count_gets a + count_gets b)%nat.
Proof. unfold count_gets. rewrite filter_app, length_app. reflexivity. Qed.

Lemma count_gets_polls (loc : str) (m : nat) : count_gets (polls loc m) = m.
Proof.
  induction m as [|m IH]; [reflexivity|].
  rewrite polls_S, count_gets_app, IH. reflexivity.
Qed.

Lemma posts_of_app (a b : list event) :
  posts_of (a ++ b) = posts_of a ++ posts_of b.
Proof. apply filter_app. Qed.

Lemma posts_of_polls (loc : str) (m : nat) : posts_of (polls loc m) = [].
Proof.
  induction m as [|m IH]; [reflexivity|].
  rewrite polls_S, posts_of_app, IH. reflexivity.
Qed.

Lemma posts_of_posts (ps : list event) :
  Forall (fun e => is_post e = true) ps -> posts_of ps = ps.
Proof.
  induction 1 as [|e ps He _ IH]; [reflexivity|].
  unfold posts_of in *. simpl. rewrite He, IH. reflexivity.
Qed.

Lemma count_gets_posts (ps : list event) :
  Forall (fun e => is_post e = true) ps -> count_gets ps = 0%nat.
Proof.
  induction 1 as [|e ps He _ IH]; [reflexivity|].
  unfold count_gets in *. simpl. destruct e; try discriminate. exact IH.
Qed.

Lemma polled_0 (loc : str) (w : World) : polled loc w 0 = w.
Proof.
  destruct w as [n tr]. unfold polled. simpl.
  rewrite Nat.add_0_r, app_nil_r. reflexivity.
Qed.

Lemma polled_S (loc : str) (w : World) (m : nat) :
  polled loc (polled loc w 1) m = polled loc w (S m).
Proof.
  unfold polled. simpl. f_equal; [lia|].
  rewrite <- app_assoc. reflexivity.
Qed.

(** One iteration of the polling loop. *)
Lemma poll_once (loc : str) (n : nat) (w : World) :
  poll net loc (S n) w =
  match net (issued w) with
  | Raise e => (Raise e, polled loc w 1)
  | Ok r =>
      match poll_response r with
      | Raise e => (Raise e, polled loc w 1)
      | Ok (Some content) => (Ok content, polled loc w 1)
      | Ok None => poll net loc n (polled loc w 1)
      end
  end.
Proof.
  assert (Hw : {| issued := S (issued w);
                  trace := (trace w ++ [Sleep 2]) ++ [Get loc] |}
               = polled loc w 1).
  { unfold polled. f_equal; [lia|]. rewrite <- app_assoc. reflexivity. }
  simpl poll. unfold bindM, time_sleep, requests_get, send, lift, ret.
  cbn [issued trace]. rewrite Hw.
  destruct (net (issued w)) as [r|e]; [|reflexivity].
  destruct (poll_response r) as [[c|]|e]; reflexivity.
Qed.

(** The loop only polls, and at most [n] times. *)
Lemma poll_world (loc : str) (n : nat) (w : World) :
  exists m, (m <= n)%nat /\ (1 <= n -> 1 <= m)%nat
            /\ snd (poll net loc n w) = polled loc w m.
Proof.
  revert w. induction n as [|n IH]; intros w.
  - exists 0%nat. rewrite polled_0. repeat split; [lia|]. lia.
  - rewrite poll_once.
    assert (Hone : exists m, (m <= S n)%nat /\ (1 <= S n -> 1 <= m)%nat
                             /\ polled loc w 1 = polled loc w m).
    { exists 1%nat. repeat split; lia. }
    destruct (net (issued w)) as [r|e]; [|exact Hone].
    destruct (poll_response r) as [[c|]|e]; try exact Hone.
    destruct (IH (polled loc w 1)) as [m [H1 [_ H2]]].
    exists (S m). rewrite H2, polled_S. repeat split; lia.
Qed.

Lemma still_running_continues (r : HttpResponse) :
  still_running (Ok r) -> poll_response r = Ok None.
Proof.
  intros [r' [d [E [Hc [Hj Hs]]]]]. inversion E; subst r'.
  unfold poll_response. rewrite Hc, Hj. cbn [negb Z.eqb Pos.eqb bind py_get].
  destruct Hs as [Hs | Hs]; rewrite Hs; reflexivity.
Qed.

(** After [j] polls answered running or notStarted the loop goes on with
    [j] attempts fewer. *)
Lemma poll_skip (loc : str) (j n : nat) (w : World) :
  (forall i, (i < j)%nat -> still_running (net (issued w + i))) ->
  poll net loc (j + n) w = poll net loc n (polled loc w j).
Proof.
  revert w. induction j as [|j IH]; intros w H.
  - rewrite polled_0. reflexivity.
  - change (S j + n)%nat with (S (j + n)). rewrite poll_once.
    pose proof (H 0%nat ltac:(lia)) as H0. rewrite Nat.add_0_r in H0.
    destruct H0 as [r [d [E H0]]]. rewrite E.
    rewrite (still_running_continues r)
      by (rewrite <- E; exists r, d; split; [exact E | exact H0]).
    rewrite IH, polled_S; [reflexivity|].
    intros i Hi. specialize (H (S i) ltac:(lia)).
    replace (issued (polled loc w 1) + i)%nat with (issued w + S i)%nat
      by (simpl; lia).
    exact H.
Qed.

Lemma if_same {A} (b : bool) (x : A) : (if b then x else x) = x.
Proof. destruct b; reflexivity. Qed.

Lemma try_versions_step (ep d v : str) (rest : list str) (w : World) :
  try_versions net ep d (v :: rest) w =
  let w' := {| issued := S (issued w);
               trace := trace w ++ [Post (analyze_url ep v) d] |} in
  match net (issued w) with
  | Raise e => (Raise e, w')
  | Ok r => if status_code r =? 202 then (Ok r, w')
            else try_versions net ep d rest w'
  end.
Proof.
  simpl try_versions. unfold bindM, requests_post, send.
  destruct (net (issued w)) as [r|e]; [|reflexivity].
  rewrite if_same. unfold ret. destruct (status_code r =? 202); reflexivity.
Qed.

(** Every version rejected: one submission each, then the legacy one,
    whose outcome is the result. *)
Lemma try_versions_rejected (ep d : str) (vs : list str) (w : World) :
  (forall i, (i < length vs)%nat -> rejected (net (issued w + i))) ->
  try_versions net ep d vs w =
  (net (issued w + length vs),
   {| issued := S (issued w + length vs);
      trace := trace w ++ map (fun v => Post (analyze_url ep v) d) vs
                       ++ [Post (legacy_url ep) d] |}).
Proof.
  revert w. induction vs as [|v vs IH]; intros w H.
  - simpl. unfold requests_post, send. rewrite Nat.add_0_r. reflexivity.
  - rewrite try_versions_step. cbv zeta.
    destruct (H 0%nat ltac:(simpl; lia)) as [r [E Hr]].
    rewrite Nat.add_0_r in E. rewrite E.
    replace (status_code r =? 202) with false
      by (symmetry; apply Z.eqb_neq; exact Hr).
    rewrite IH.
    + cbn [issued trace length map]. rewrite <- app_assoc.
      replace (S (issued w) + length vs)%nat
        with (issued w + S (length vs))%nat by lia.
      reflexivity.
    + intros i Hi. cbn [issued].
      replace (S (issued w) + i)%nat with (issued w + S i)%nat by lia.
      apply H. simpl. lia.
Qed.

(** Version [k] is the first one accepted: submissions up to it, none
    after. *)
Lemma try_versions_accepted (ep d : str) (vs : list str) (k : nat)
  (w : World) (r : HttpResponse) :
  (k < length vs)%nat ->
  (forall i, (i < k)%nat -> rejected (net (issued w + i))) ->
  net (issued w + k) = Ok r -> status_code r = 202 ->
  try_versions net ep d vs w =
  (Ok r,
   {| issued := S (issued w + k);
      trace := trace w
               ++ map (fun v => Post (analyze_url ep v) d) (firstn (S k) vs) |}).
Proof.
  revert k w. induction vs as [|v vs IH]; intros k w Hk H Hn Hr.
  - simpl in Hk. lia.
  - rewrite try_versions_step. cbv zeta. destruct k as [|k].
    + rewrite Nat.add_0_r in *. rewrite Hn, Hr. reflexivity.
    + destruct (H 0%nat ltac:(lia)) as [r0 [E Hr0]].
      rewrite Nat.add_0_r in E. rewrite E.
      replace (status_code r0 =? 202) with false
        by (symmetry; apply Z.eqb_neq; exact Hr0).
      rewrite (IH k _ ltac:(simpl in Hk; lia)); cbn [issued trace].
      * rewrite <- app_assoc.
        replace (S (issued w) + k)%nat with (issued w + S k)%nat by lia.
        reflexivity.
      * intros i Hi.
        replace (S (issued w) + i)%nat with (issued w + S i)%nat by lia.
        apply H. lia.
      * replace (S (issued w) + k)%nat with (issued w + S k)%nat by lia.
        exact Hn.
      * exact Hr.
Qed.

(** The submissions add submissions only. *)
Lemma try_versions_posts (ep d : str) (vs : list str) (w : World) :
  exists ps, trace (snd (try_versions net ep d vs w)) = trace w ++ ps
             /\ Forall (fun e => is_post e = true) ps.
Proof.
  revert w. induction vs as [|v vs IH]; intros w.
  - exists [Post (legacy_url ep) d]. split; [reflexivity|].
    constructor; [reflexivity | constructor].
  - rewrite try_versions_step. cbv zeta.
    assert (Hone : exists ps,
               trace w ++ [Post (analyze_url ep v) d] = trace w ++ ps
               /\ Forall (fun e => is_post e = true) ps).
    { eexists. split; [reflexivity|]. constructor; [reflexivity | constructor]. }
    destruct (net (issued w)) as [r|e]; [|exact Hone].
    destruct (status_code r =? 202); [exact Hone|].
    destruct (IH {| issued := S (issued w);
                    trace := trace w ++ [Post (analyze_url ep v) d] |})
      as [ps [H1 H2]].
    exists (Post (analyze_url ep v) d :: ps). split.
    + rewrite H1. cbn [trace]. rewrite <- app_assoc. reflexivity.
    + constructor; [reflexivity | exact H2].
Qed.

(** [start_analysis] leaves the world as the submissions left it. *)
Lemma start_analysis_world (ep d : str) (w : World) :
  snd (start_analysis net ep d w)
  = snd (try_versions net ep d api_versions w).
Proof.
  unfold start_analysis, bindM.
  destruct (try_versions net ep d api_versions w) as [[r|e] w1];
    [|reflexivity].
  destruct (negb (status_code r =? 202)).
  - destruct (status_code r =? 401); reflexivity.
  - destruct (operation_location r) as [l|]; [|reflexivity].
    destruct (nonempty l); reflexivity.
Qed.

(** The run with credentials present. *)
Lemma rest_run_unfold (key ep d : str) :
  nonempty key = true -> nonempty ep = true ->
  rest_run net key ep d =
  reraise_as ErrorExtractingText
    (location <~ start_analysis net (rstrip_char 47%N ep) d ;;
     poll net location max_attempts) initial_world.
Proof.
  intros Hk He. unfold rest_run, extract_text_from_pdf_rest.
  unfold reraise_as, opt_truthy. rewrite Hk, He. reflexivity.
Qed.

Lemma reraise_world {A} (f : exn -> exn) (m : M A) (w : World) :
  snd (reraise_as f m w) = snd (m w).
Proof.
  unfold reraise_as. destruct (m w) as [[a|e] w']; reflexivity.
Qed.

(** Once the analysis has started the run is the polling loop. *)
Lemma rest_run_started (key ep d loc : str) (w1 : World) :
  nonempty key = true -> nonempty ep = true ->
  start_analysis net (rstrip_char 47%N ep) d initial_world = (Ok loc, w1) ->
  rest_run net key ep d
  = reraise_as ErrorExtractingText (poll net loc max_attempts) w1
  /\ count_gets (trace w1) = 0%nat.
Proof.
  intros Hk He Hs. rewrite rest_run_unfold by assumption.
  unfold reraise_as at 1. unfold bindM. rewrite Hs. split.
  - unfold reraise_as. reflexivity.
  - pose proof (start_analysis_world (rstrip_char 47%N ep) d initial_world)
      as Hw.
    rewrite Hs in Hw. cbn [snd] in Hw.
    destruct (try_versions_posts (rstrip_char 47%N ep) d api_versions
                initial_world) as [ps [H1 H2]].
    rewrite <- Hw in H1. rewrite H1. apply count_gets_posts, H2.
Qed.

Lemma polled_add (loc : str) (w : World) (a b : nat) :
  polled loc (polled loc w a) b = polled loc w (a + b).
Proof.
  revert w. induction a as [|a IH]; intros w.
  - rewrite polled_0. reflexivity.
  - rewrite <- (polled_S loc w a), IH, polled_S. reflexivity.
Qed.

Lemma count_gets_polled (loc : str) (w : World) (m : nat) :
  count_gets (trace (polled loc w m)) = (count_gets (trace w) + m)%nat.
Proof. unfold polled. cbn [trace]. rewrite count_gets_app, count_gets_polls. reflexivity. Qed.

(** The submissions of a run are those of the loop over the versions. *)
Lemma rest_run_posts (key ep d : str) :
  nonempty key = true -> nonempty ep = true ->
  posts_of (trace (snd (rest_run net key ep d)))
  = posts_of (trace (snd (try_versions net (rstrip_char 47%N ep) d
                            api_versions initial_world))).
Proof.
  intros Hk He. rewrite rest_run_unfold by assumption.
  rewrite reraise_world, <- start_analysis_world. unfold bindM.
  destruct (start_analysis net (rstrip_char 47%N ep) d initial_world)
    as [[loc|e] w1]; [|reflexivity].
  destruct (poll_world loc max_attempts w1) as [m [_ [_ Hm]]].
  rewrite Hm. unfold polled. cbn [snd trace].
  rewrite posts_of_app, posts_of_polls, app_nil_r. reflexivity.
Qed.

Lemma posts_of_submissions (ep d : str) (vs : list str) (tail : list event) :
  Forall (fun e => is_post e = true) tail ->
  posts_of ([] ++ map (fun v => Post (analyze_url ep v) d) vs ++ tail)
  = map (fun v => Post (analyze_url ep v) d) vs ++ tail.
Proof.
  intros H. apply posts_of_posts. simpl. apply Forall_app. split; [|exact H].
  apply Forall_forall. intros e He. apply in_map_iff in He.
  destruct He as [v [<- _]]. reflexivity.
Qed.

(** No submission accepted: the error of the run is made of the legacy
    response alone. *)
Lemma all_rejected_error (key ep d : str) (r : HttpResponse) :
  nonempty key = true -> nonempty ep = true ->
  (forall i, (i < 3)%nat -> rejected (net i)) ->
  net 3%nat = Ok r -> status_code r <> 202 ->
  fst (rest_run net key ep d) =
  Raise (ErrorExtractingText
           (if status_code r =? 401
            then AuthenticationFailed (status_code r) (text r)
            else FailedToStartAnalysis (status_code r) (text r))).
Proof.
  intros Hk He Hrej Hn Hr. rewrite rest_run_unfold by assumption.
  unfold reraise_as, bindM, start_analysis, bindM.
  rewrite try_versions_rejected by exact Hrej.
  change (issued initial_world + length api_versions)%nat with 3%nat.
  rewrite Hn.
  replace (status_code r =? 202) with false
    by (symmetry; apply Z.eqb_neq; exact Hr).
  cbn [negb]. destruct (status_code r =? 401); reflexivity.
Qed.

(** The run when the first [j] polls are answered running or notStarted
    and the next one is answered by [r]. *)
Lemma run_at_poll (key ep d loc : str) (w1 : World) (j : nat)
  (r : HttpResponse) :
  nonempty key = true -> nonempty ep = true ->
  start_analysis net (rstrip_char 47%N ep) d initial_world = (Ok loc, w1) ->
  (j < 30)%nat ->
  (forall i, (i < j)%nat -> still_running (net (issued w1 + i))) ->
  net (issued w1 + j) = Ok r ->
  rest_run net key ep d =
  reraise_as ErrorExtractingText
    (fun w => match poll_response r with
              | Raise e => (Raise e, w)
              | Ok (Some content) => (Ok content, w)
              | Ok None => poll net loc (29 - j) w
              end) (polled loc w1 (S j))
  /\ count_gets (trace (polled loc w1 (S j))) = S j.
Proof.
  intros Hk He Hs Hj Hrun Hn.
  destruct (rest_run_started key ep d loc w1 Hk He Hs) as [Hr H0].
  split; [|rewrite count_gets_polled, H0; reflexivity].
  rewrite Hr. unfold reraise_as.
  replace max_attempts with (j + S (29 - j))%nat
    by (unfold max_attempts; lia).
  rewrite poll_skip by exact Hrun.
  rewrite poll_once, polled_add.
  replace (j + 1)%nat with (S j) by lia.
  change (issued (polled loc w1 j)) with (issued w1 + j)%nat. rewrite Hn.
  destruct (poll_response r) as [[c|]|e]; reflexivity.
Qed.

End GatewayProofs.

(** C2.  The document is submitted to the API versions in the order of the
    list, newest first; the submissions stop with the first one answered
    202, and no later version is tried.  When every version is answered
    with another status, the legacy endpoint is submitted to once, after
    the three versions, and if it is not accepted either the call fails. *)
Theorem version_fallback_order (net : nat -> result HttpResponse)
  (key ep d : str) :
  nonempty key = true -> nonempty ep = true ->
  (forall k r, (k < 3)%nat ->
      (forall i, (i < k)%nat -> rejected (net i)) ->
      net k = Ok r -> status_code r = 202 ->
      posts_of (trace (snd (rest_run net key ep d)))
      = map (submission ep d) (firstn (S k) api_versions))
  /\ ((forall i, (i < 3)%nat -> rejected (net i)) ->
      posts_of (trace (snd (rest_run net key ep d)))
      = map (submission ep d) api_versions ++ [legacy_submission ep d]
      /\ (rejected (net 3%nat) -> exists e, fst (rest_run net key ep d) = Raise e)).
Proof.
  intros Hk He. split.
  - intros k r Hk3 Hrej Hn Hr.
    rewrite rest_run_posts by assumption.
    rewrite (try_versions_accepted net _ d api_versions k initial_world r);
      auto.
    cbn [snd trace initial_world]. unfold submission.
    rewrite <- (app_nil_r (map _ (firstn (S k) api_versions))) at 1.
    rewrite posts_of_submissions by constructor. apply app_nil_r.
  - intros Hrej. split.
    + rewrite rest_run_posts by assumption.
      rewrite try_versions_rejected by exact Hrej.
      cbn [snd trace initial_world]. unfold submission, legacy_submission.
      apply posts_of_submissions. constructor; [reflexivity | constructor].
    + intros [r [Hn Hr]]. eexists.
      apply (all_rejected_error net key ep d r); assumption.
Qed.

Lemma version_fallback_order_witness :
  posts_of (trace (snd (rest_run net_second_version example_key
                          example_endpoint example_pdf)))
  = [submission example_endpoint example_pdf (py "2024-02-29-preview");
     submission example_endpoint example_pdf (py "2023-07-31")].
Proof.
  refine (proj1 (version_fallback_order net_second_version example_key
                   example_endpoint example_pdf _ _)
            1%nat _ _ _ _ _).
  - reflexivity.
  - reflexivity.
  - lia.
  - intros i Hi. destruct i as [|i]; [|lia].
    eexists. split; [reflexivity|]. vm_compute. discriminate.
  - reflexivity.
  - reflexivity.
Defined.

(** C7, as amended.  When neither a version nor the legacy endpoint
    accepts the document, the call fails with an error made of the status
    code and the body of the last response, the legacy one, and of nothing
    else: two services whose legacy responses agree make the same error,
    whatever they answered to the versions. *)
Theorem rejection_error_is_last_response
  (net net' : nat -> result HttpResponse) (key ep d : str)
  (r : HttpResponse) :
  nonempty key = true -> nonempty ep = true ->
  (forall i, (i < 3)%nat -> rejected (net i)) ->
  net 3%nat = Ok r -> status_code r <> 202 ->
  fst (rest_run net key ep d) =
  Raise (ErrorExtractingText
           (if status_code r =? 401
            then AuthenticationFailed (status_code r) (text r)
            else FailedToStartAnalysis (status_code r) (text r)))
  /\ ((forall i, (i < 3)%nat -> rejected (net' i)) -> net' 3%nat = Ok r ->
      fst (rest_run net' key ep d) = fst (rest_run net key ep d)).
Proof.
  intros Hk He Hrej Hn Hr. split.
  - apply all_rejected_error; assumption.
  - intros Hrej' Hn'.
    rewrite (all_rejected_error net key ep d r) by assumption.
    apply all_rejected_error; assumption.
Qed.

Ltac script_rejected :=
  let i := fresh "i" in
  let Hi := fresh "Hi" in
  intros i Hi;
  do 3 (destruct i as [|i];
        [eexists; split; [reflexivity | vm_compute; discriminate]|]);
  lia.

Lemma rejection_error_is_last_response_witness :
  fst (rest_run net_rejecting_a example_key example_endpoint example_pdf)
  = Raise (ErrorExtractingText (FailedToStartAnalysis 400 (py "bad"))).
Proof.
  refine (proj1 (rejection_error_is_last_response net_rejecting_a
                   net_rejecting_b example_key example_endpoint example_pdf
                   bad_request _ _ _ _ _)).
  - reflexivity.
  - reflexivity.
  - script_rejected.
  - reflexivity.
  - vm_compute. discriminate.
Defined.

(** C7 as stated fails: two services that answer the three versions with
    different statuses (404, 500, 403 and 429, 503, 502) make the call fail
    with one and the same error, which therefore names neither the versions
    tried nor the status each returned. *)
Lemma error_does_not_name_attempts :
  fst (rest_run net_rejecting_a example_key example_endpoint example_pdf)
  = Raise (ErrorExtractingText (FailedToStartAnalysis 400 (py "bad")))
  /\ fst (rest_run net_rejecting_b example_key example_endpoint example_pdf)
     = Raise (ErrorExtractingText (FailedToStartAnalysis 400 (py "bad")))
  /\ map (fun o => match o with Ok r => status_code r | Raise _ => 0 end)
         (map net_rejecting_a [0; 1; 2]%nat) = [404; 500; 403]
  /\ map (fun o => match o with Ok r => status_code r | Raise _ => 0 end)
         (map net_rejecting_b [0; 1; 2]%nat) = [429; 503; 502]
  /\ ~ (exists statuses_named : result pyvalue -> list Z,
          forall net,
            (forall i, (i < 4)%nat -> rejected (net i)) ->
            statuses_named
              (fst (rest_run net example_key example_endpoint example_pdf))
            = map (fun o => match o with
                            | Ok r => status_code r
                            | Raise _ => 0
                            end) (map net [0; 1; 2; 3]%nat)).
Proof.
  split; [vm_compute; reflexivity|].
  split; [vm_compute; reflexivity|].
  split; [vm_compute; reflexivity|].
  split; [vm_compute; reflexivity|].
  intros [f Hf].
  assert (Ha : forall i, (i < 4)%nat -> rejected (net_rejecting_a i)).
  { intros i Hi.
    do 4 (destruct i as [|i];
          [eexists; split; [reflexivity | vm_compute; discriminate]|]).
    lia. }
  assert (Hb : forall i, (i < 4)%nat -> rejected (net_rejecting_b i)).
  { intros i Hi.
    do 4 (destruct i as [|i];
          [eexists; split; [reflexivity | vm_compute; discriminate]|]).
    lia. }
  pose proof (Hf _ Ha) as H1. pose proof (Hf _ Hb) as H2.
  replace (fst (rest_run net_rejecting_b example_key example_endpoint
                  example_pdf))
    with (fst (rest_run net_rejecting_a example_key example_endpoint
                 example_pdf)) in H2 by (vm_compute; reflexivity).
  rewrite H1 in H2. vm_compute in H2. discriminate.
Qed.

(** C3.  Whatever the service answers, the run is made of submissions
    followed by at most 30 polls of one location, each a two-second sleep
    and then the request.  When the analysis has started and the 30 polls
    are all answered running or notStarted, the 30 polls are made and the
    call fails with the timeout error. *)
Theorem polling_budget (net : nat -> result HttpResponse) (key ep d : str) :
  (exists ps loc m,
      trace (snd (rest_run net key ep d)) = ps ++ polls loc m
      /\ Forall (fun e => is_post e = true) ps
      /\ (m <= 30)%nat)
  /\ (forall loc w1,
        nonempty key = true -> nonempty ep = true ->
        start_analysis net (rstrip_char 47%N ep) d initial_world
        = (Ok loc, w1) ->
        (forall i, (i < 30)%nat -> still_running (net (issued w1 + i)%nat)) ->
        fst (rest_run net key ep d)
        = Raise (ErrorExtractingText AnalysisTimedOut)
        /\ trace (snd (rest_run net key ep d)) = trace w1 ++ polls loc 30).
Proof.
  split.
  - destruct (nonempty key) eqn:Hk; [destruct (nonempty ep) eqn:He|].
    + rewrite rest_run_unfold by assumption.
      rewrite reraise_world. unfold bindM.
      pose proof (start_analysis_world net (rstrip_char 47%N ep) d
                    initial_world) as Hw.
      destruct (try_versions_posts net (rstrip_char 47%N ep) d api_versions
                  initial_world) as [ps [H1 H2]].
      rewrite <- Hw in H1. cbn [trace initial_world app] in H1.
      destruct (start_analysis net (rstrip_char 47%N ep) d initial_world)
        as [[loc|e] w1]; cbn [snd] in *.
      * destruct (poll_world net loc max_attempts w1) as [m [Hm [_ Hp]]].
        exists ps, loc, m. rewrite Hp. unfold polled. cbn [trace].
        rewrite H1. repeat split; auto.
      * exists ps, [], 0%nat. rewrite H1, app_nil_r.
        repeat split; auto. lia.
    + exists [], [], 0%nat.
      unfold rest_run, extract_text_from_pdf_rest, reraise_as, opt_truthy.
      rewrite Hk, He. repeat split; auto. lia.
    + exists [], [], 0%nat.
      unfold rest_run, extract_text_from_pdf_rest, reraise_as, opt_truthy.
      rewrite Hk. repeat split; auto. lia.
  - intros loc w1 Hk He Hs Hrun.
    destruct (rest_run_started net key ep d loc w1 Hk He Hs) as [Hr _].
    rewrite Hr. unfold reraise_as.
    replace max_attempts with (30 + 0)%nat by reflexivity.
    rewrite poll_skip by exact Hrun.
    split; reflexivity.
Qed.

Lemma polling_budget_witness :
  fst (rest_run net_always_running example_key example_endpoint example_pdf)
  = Raise (ErrorExtractingText AnalysisTimedOut)
  /\ trace (snd (rest_run net_always_running example_key example_endpoint
                   example_pdf))
     = [submission example_endpoint example_pdf (py "2024-02-29-preview")]
       ++ polls example_location 30.
Proof.
  refine (proj2 (polling_budget net_always_running example_key
                   example_endpoint example_pdf)
            example_location
            {| issued := 1;
               trace := [submission example_endpoint example_pdf
                           (py "2024-02-29-preview")] |} _ _ _ _).
  - reflexivity.
  - reflexivity.
  - vm_compute. reflexivity.
  - intros i _. cbn [issued Nat.add net_always_running].
    eexists. eexists. split; [reflexivity|].
    split; [reflexivity|]. split; [vm_compute; reflexivity|].
    left. reflexivity.
Defined.

(** C10.  A poll answered with a status code other than 200 ends the call
    at once with an error carrying that code and the body: no poll
    follows it, however many attempts are left. *)
Theorem poll_http_error_is_fatal (net : nat -> result HttpResponse)
  (key ep d loc : str) (w1 : World) (j : nat) (r : HttpResponse) :
  nonempty key = true -> nonempty ep = true ->
  start_analysis net (rstrip_char 47%N ep) d initial_world = (Ok loc, w1) ->
  (j < 30)%nat ->
  (forall i, (i < j)%nat -> still_running (net (issued w1 + i)%nat)) ->
  net (issued w1 + j)%nat = Ok r ->
  status_code r <> 200 ->
  fst (rest_run net key ep d)
  = Raise (ErrorExtractingText
             (FailedToGetResults (status_code r) (text r)))
  /\ count_gets (trace (snd (rest_run net key ep d))) = S j.
Proof.
  intros Hk He Hs Hj Hrun Hn Hc.
  destruct (run_at_poll net key ep d loc w1 j r Hk He Hs Hj Hrun Hn)
    as [Hr Hg].
  rewrite Hr. unfold reraise_as, poll_response.
  replace (status_code r =? 200) with false
    by (symmetry; apply Z.eqb_neq; exact Hc).
  cbn [negb fst snd]. split; [reflexivity | exact Hg].
Qed.

Ltac one_running :=
  let i := fresh "i" in
  let Hi := fresh "Hi" in
  intros i Hi; destruct i as [|i]; [|lia];
  eexists; eexists; split; [reflexivity|];
  split; [reflexivity|]; split; [vm_compute; reflexivity|];
  left; reflexivity.

Lemma poll_http_error_is_fatal_witness :
  fst (rest_run net_poll_500 example_key example_endpoint example_pdf)
  = Raise (ErrorExtractingText (FailedToGetResults 500 (py "oops")))
  /\ count_gets (trace (snd (rest_run net_poll_500 example_key
                               example_endpoint example_pdf))) = 2%nat.
Proof.
  refine (poll_http_error_is_fatal net_poll_500 example_key example_endpoint
            example_pdf example_location
            {| issued := 1;
               trace := [submission example_endpoint example_pdf
                           (py "2024-02-29-preview")] |}
            1%nat
            {| status_code := 500; text := py "oops";
               operation_location := None;
               json := json_loads (py "oops") |} _ _ _ _ _ _ _).
  - reflexivity.
  - reflexivity.
  - vm_compute. reflexivity.
  - lia.
  - one_running.
  - reflexivity.
  - vm_compute. discriminate.
Defined.

Lemma poll_response_200 (r : HttpResponse) (body : list (str * pyvalue)) :
  status_code r = 200 -> json r = Ok (PyDict body) ->
  poll_response r =
  let status := from_option (dict_lookup body (py "status")) PyNone in
  if eq_str status (py "succeeded") then
    content <- succeeded_content (PyDict body) ;; Ok (Some content)
  else if eq_str status (py "failed") then
    Raise (AnalysisFailed
             (from_option (dict_lookup body (py "error")) (PyDict [])))
  else if eq_str status (py "running") || eq_str status (py "notStarted")
  then Ok None
  else Raise (UnknownStatus status).
Proof.
  intros Hc Hj. unfold poll_response. rewrite Hc, Hj. reflexivity.
Qed.

Lemma eq_str_false (v : pyvalue) (s : str) :
  v <> PyStr s -> eq_str v s = false.
Proof.
  intros H. destruct (eq_str v s) eqn:E; [|reflexivity].
  apply eq_str_iff in E. contradiction.
Qed.

(** C4.  A poll answered 200 with a JSON object is decided by the status
    field of the object.  With succeeded the call returns the content of
    analyzeResult; with failed it fails at once with the error the service
    reported; with running or notStarted the next poll follows, or the
    timeout when this was the last attempt; with any other value, or none,
    it fails at once with the unknown-status error. *)
Theorem poll_status_cases (net : nat -> result HttpResponse)
  (key ep d loc : str) (w1 : World) (j : nat) (r : HttpResponse)
  (body : list (str * pyvalue)) :
  nonempty key = true -> nonempty ep = true ->
  start_analysis net (rstrip_char 47%N ep) d initial_world = (Ok loc, w1) ->
  (j < 30)%nat ->
  (forall i, (i < j)%nat -> still_running (net (issued w1 + i)%nat)) ->
  net (issued w1 + j)%nat = Ok r ->
  status_code r = 200 -> json r = Ok (PyDict body) ->
  let status := from_option (dict_lookup body (py "status")) PyNone in
  let run := rest_run net key ep d in
  (status = PyStr (py "succeeded") ->
     fst run = match succeeded_content (PyDict body) with
               | Ok content => Ok content
               | Raise e => Raise (ErrorExtractingText e)
               end
     /\ (forall a c,
           dict_lookup body (py "analyzeResult") = Some (PyDict a) ->
           dict_lookup a (py "content") = Some (PyStr c) ->
           fst run = Ok (PyStr c))
     /\ count_gets (trace (snd run)) = S j)
  /\ (status = PyStr (py "failed") ->
      fst run = Raise (ErrorExtractingText
                         (AnalysisFailed
                            (from_option (dict_lookup body (py "error"))
                                         (PyDict []))))
      /\ count_gets (trace (snd run)) = S j)
  /\ (status = PyStr (py "running") \/ status = PyStr (py "notStarted") ->
      ((S j < 30)%nat -> (S (S j) <= count_gets (trace (snd run)))%nat)
      /\ (S j = 30%nat ->
          fst run = Raise (ErrorExtractingText AnalysisTimedOut)))
  /\ (status <> PyStr (py "succeeded") -> status <> PyStr (py "failed") ->
      status <> PyStr (py "running") -> status <> PyStr (py "notStarted") ->
      fst run = Raise (ErrorExtractingText (UnknownStatus status))
      /\ count_gets (trace (snd run)) = S j).
Proof.
  intros Hk He Hs Hj Hrun Hn Hc Hb status run.
  destruct (run_at_poll net key ep d loc w1 j r Hk He Hs Hj Hrun Hn)
    as [Hr Hg].
  pose proof (poll_response_200 r body Hc Hb) as Hp.
  cbv zeta in Hp. fold status in Hp.
  unfold run. rewrite Hr. clear Hr. unfold reraise_as.
  split; [|split; [|split]].
  - intros E. rewrite E in Hp.
    change (eq_str (PyStr (py "succeeded")) (py "succeeded")) with true in Hp.
    cbv iota in Hp. rewrite Hp.
    assert (Hfst : forall x,
      fst (let (r0, w') :=
             match (content <- x ;; Ok (Some content)) with
             | Ok (Some content) => (Ok content, polled loc w1 (S j))
             | Ok None => poll net loc (29 - j) (polled loc w1 (S j))
             | Raise e => (Raise e, polled loc w1 (S j))
             end in
           match r0 with
           | Ok a => (Ok a, w')
           | Raise e => (Raise (ErrorExtractingText e), w')
           end)
      = match x with
        | Ok content => Ok content
        | Raise e => Raise (ErrorExtractingText e)
        end).
    { intros [c|e]; reflexivity. }
    split; [apply Hfst|]. split.
    + intros a c Ha Hcont. rewrite Hfst.
      unfold succeeded_content. cbn [py_get bind]. rewrite Ha.
      cbn [py_get bind]. rewrite Hcont. reflexivity.
    + destruct (succeeded_content (PyDict body)); exact Hg.
  - intros E. rewrite E in Hp.
    change (eq_str (PyStr (py "failed")) (py "succeeded")) with false in Hp.
    change (eq_str (PyStr (py "failed")) (py "failed")) with true in Hp.
    cbv iota in Hp. rewrite Hp. split; [reflexivity | exact Hg].
  - intros E.
    assert (Hp' : poll_response r = Ok None).
    { destruct E as [E | E]; rewrite E in Hp; exact Hp. }
    rewrite Hp'. split.
    + intros Hlt.
      destruct (poll_world net loc (29 - j) (polled loc w1 (S j)))
        as [m [_ [Hm Hw]]].
      destruct (poll net loc (29 - j) (polled loc w1 (S j))) as [[c|e] w'];
        cbn [snd] in *; subst w';
        rewrite count_gets_polled, Hg; specialize (Hm ltac:(lia)); lia.
    + intros E30. replace (29 - j)%nat with 0%nat by lia. reflexivity.
  - intros N1 N2 N3 N4.
    rewrite (eq_str_false _ _ N1), (eq_str_false _ _ N2),
            (eq_str_false _ _ N3), (eq_str_false _ _ N4) in Hp.
    cbn [orb] in Hp. rewrite Hp. split; [reflexivity | exact Hg].
Qed.

Lemma poll_status_cases_witness :
  fst (rest_run net_second_version example_key example_endpoint example_pdf)
  = Ok (PyStr (py "hi")).
Proof.
  pose proof (poll_status_cases net_second_version example_key
                example_endpoint example_pdf example_location
                {| issued := 2;
                   trace := [submission example_endpoint example_pdf
                               (py "2024-02-29-preview");
                             submission example_endpoint example_pdf
                               (py "2023-07-31")] |}
                1%nat
                {| status_code := 200;
                   text := pyq "{'status': 'succeeded', 'analyzeResult': {'content': 'hi'}}";
                   operation_location := None;
                   json := json_loads (pyq "{'status': 'succeeded', 'analyzeResult': {'content': 'hi'}}") |}
                [(py "status", PyStr (py "succeeded"));
                 (py "analyzeResult", PyDict [(py "content", PyStr (py "hi"))])])
    as H.
  assert (H1 : nonempty example_key = true) by reflexivity.
  assert (H2 : nonempty example_endpoint = true) by reflexivity.
  specialize (H H1 H2).
  assert (H3 : start_analysis net_second_version
                 (rstrip_char 47%N example_endpoint) example_pdf initial_world
               = (Ok example_location,
                  {| issued := 2;
                     trace := [submission example_endpoint example_pdf
                                 (py "2024-02-29-preview");
                               submission example_endpoint example_pdf
                                 (py "2023-07-31")] |}))
    by (vm_compute; reflexivity).
  specialize (H H3).
  assert (H4 : (1 < 30)%nat) by lia.
  specialize (H H4).
  assert (H5 : forall i, (i < 1)%nat ->
                 still_running (net_second_version (2 + i)%nat))
    by one_running.
  specialize (H H5 eq_refl eq_refl).
  assert (H6 : json_loads (pyq "{'status': 'succeeded', 'analyzeResult': {'content': 'hi'}}")
               = Ok (PyDict [(py "status", PyStr (py "succeeded"));
                             (py "analyzeResult",
                              PyDict [(py "content", PyStr (py "hi"))])]))
    by (vm_compute; reflexivity).
  specialize (H H6).
  destruct H as [H _].
  destruct (H eq_refl) as [_ [Hc _]].
  exact (Hc _ _ eq_refl eq_refl).
Defined.

(* ================================================================== *)
(** ** More on strings *)
(* ================================================================== *)

Lemma infix_trans (a b c : str) : infix a b -> infix b c -> infix a c.
Proof.
  intros [p [q ->]] [r [t ->]]. exists (r ++ p), (q ++ t).
  rewrite <- !app_assoc. reflexivity.
Qed.

Lemma infix_skipn (n : nat) (s : str) : infix (skipn n s) s.
Proof.
  exists (firstn n s), []. rewrite app_nil_r. symmetry. apply firstn_skipn.
Qed.

Lemma infix_firstn (n : nat) (s : str) : infix (firstn n s) s.
Proof. exists [], (skipn n s). symmetry. apply firstn_skipn. Qed.

Lemma infix_slice (s : str) (a b : Z) : infix (slice s a b) s.
Proof.
  unfold slice. eapply infix_trans; [apply infix_firstn | apply infix_skipn].
Qed.

Lemma lstrip_suffix (s : str) : exists a, s = a ++ lstrip s.
Proof.
  induction s as [|c s [a IH]]; [exists []; reflexivity|]. simpl.
  destruct (isspace c).
  - exists (c :: a). simpl. rewrite <- IH. reflexivity.
  - exists []. reflexivity.
Qed.

Lemma infix_lstrip (s : str) : infix (lstrip s) s.
Proof.
  destruct (lstrip_suffix s) as [a H]. exists a, [].
  rewrite app_nil_r. exact H.
Qed.

Lemma infix_rstrip (s : str) : infix (rstrip s) s.
Proof.
  unfold rstrip. destruct (lstrip_suffix (rev s)) as [a H].
  exists [], (rev a). simpl.
  rewrite <- rev_app_distr, <- H, rev_involutive. reflexivity.
Qed.

Lemma infix_strip (s : str) : infix (strip s) s.
Proof.
  unfold strip. eapply infix_trans; [apply infix_rstrip | apply infix_lstrip].
Qed.

Lemma lstrip_head (s : str) :
  match lstrip s with
  | [] => True
  | c :: _ => isspace c = false
  end.
Proof.
  induction s as [|c s IH]; simpl; [exact I|].
  destruct (isspace c) eqn:E; [exact IH | exact E].
Qed.

Lemma lstrip_snoc (u : str) (c : char) :
  isspace c = false -> exists w, lstrip (u ++ [c]) = w ++ [c].
Proof.
  intros Hc. induction u as [|x u [w IH]]; simpl.
  - rewrite Hc. exists []. reflexivity.
  - destruct (isspace x).
    + exists w. exact IH.
    + exists (x :: u). reflexivity.
Qed.

Lemma lstrip_fixed (s : str) :
  match s with
  | [] => True
  | c :: _ => isspace c = false
  end -> lstrip s = s.
Proof. destruct s as [|c s]; [reflexivity|]. simpl. intros ->. reflexivity. Qed.

(** Stripping a stripped text changes nothing. *)
Lemma strip_strip (s : str) : strip (strip s) = strip s.
Proof.
  unfold strip.
  assert (H : lstrip (rstrip (lstrip s)) = rstrip (lstrip s)).
  { pose proof (lstrip_head s) as Hh.
    destruct (lstrip s) as [|c t]; [reflexivity|].
    unfold rstrip. simpl rev.
    destruct (lstrip_snoc (rev t) c Hh) as [w Hw]. rewrite Hw.
    rewrite rev_app_distr. simpl. rewrite Hh. reflexivity. }
  rewrite H. unfold rstrip. rewrite rev_involutive.
  rewrite (lstrip_fixed (lstrip (rev (lstrip s)))); [reflexivity|].
  apply lstrip_head.
Qed.

(* ================================================================== *)
(** ** The target role *)
(* ================================================================== *)

Section TargetRoleProofs.
Context {cm : CaseMap}.

Lemma remove_prefix_part (prefixes : list str) (s : str) :
  strip s = s -> stripped_part (remove_prefix prefixes s) s.
Proof.
  intros Hs. induction prefixes as [|p ps IH]; simpl.
  - split; [exact Hs | apply infix_refl].
  - destruct (startswith (lower s) p); [|exact IH].
    split; [apply strip_strip|].
    eapply infix_trans; [apply infix_strip | apply infix_slice].
Qed.

Lemma remove_suffix_part (suffixes : list str) (s : str) :
  strip s = s -> stripped_part (remove_suffix suffixes s) s.
Proof.
  intros Hs. induction suffixes as [|p ps IH]; simpl.
  - split; [exact Hs | apply infix_refl].
  - destruct (endswith (lower s) p); [|exact IH].
    split; [apply strip_strip|].
    eapply infix_trans; [apply infix_strip | apply infix_slice].
Qed.

(** X1.  A role that [extract_target_role] returns is longer than two
    characters, has no white space at either end and is a contiguous part
    of the message, which itself has at least five characters between its
    surrounding white space. *)
Theorem role_is_stripped_part (message_content role : str) :
  extract_target_role message_content = Some role ->
  2 < len role
  /\ strip role = role
  /\ infix role message_content
  /\ 5 <= len (strip message_content).
Proof.
  unfold extract_target_role.
  destruct (negb (nonempty message_content)
            || (len (strip message_content) <? 5)) eqn:E; [discriminate|].
  apply orb_false_iff in E. destruct E as [_ E]. apply Z.ltb_ge in E.
  assert (Hm : stripped_part (strip message_content) message_content)
    by (split; [apply strip_strip | apply infix_strip]).
  destruct (existsb _ role_indicators).
  - destruct (remove_prefix_part prefixes_to_remove (strip message_content)
                (strip_strip _)) as [P1 P2].
    destruct (remove_suffix_part suffixes_to_remove
                (remove_prefix prefixes_to_remove (strip message_content)) P1)
      as [S1 S2].
    destruct (len _ >? 2) eqn:L; [|discriminate].
    intros H. inversion H; subst role. clear H.
    rewrite Z.gtb_ltb in L. apply Z.ltb_lt in L.
    repeat split; auto.
    eapply infix_trans; [exact S2|].
    eapply infix_trans; [exact P2 | apply Hm].
  - destruct (len _ >? 2) eqn:L; [|discriminate].
    intros H. inversion H; subst role. clear H.
    rewrite Z.gtb_ltb in L. apply Z.ltb_lt in L.
    destruct Hm. repeat split; auto.
Qed.

(** X2.  A message without any of the indicator words is taken whole:
    with at least five characters between its surrounding white space the
    role is the stripped message, and otherwise there is none. *)
Theorem role_without_indicator (message_content : str) :
  (forall indicator, In indicator role_indicators ->
                     ~ infix indicator (lower message_content)) ->
  extract_target_role message_content
  = if len (strip message_content) <? 5 then None
    else Some (strip message_content).
Proof.
  intros H. unfold extract_target_role.
  destruct (len (strip message_content) <? 5) eqn:E.
  - rewrite orb_true_r. reflexivity.
  - rewrite orb_false_r.
    destruct (nonempty message_content) eqn:N; cbn [negb].
    + destruct (existsb _ role_indicators) eqn:Hex.
      * apply existsb_exists in Hex. destruct Hex as [i [Hi Hc]].
        apply contains_iff in Hc. destruct (H i Hi Hc).
      * apply Z.ltb_ge in E.
        replace (len (strip message_content) >? 2) with true; [reflexivity|].
        symmetry. rewrite Z.gtb_ltb. apply Z.ltb_lt. lia.
    + destruct message_content; [|discriminate].
      apply Z.ltb_ge in E. vm_compute in E. contradiction E. reflexivity.
Qed.

End TargetRoleProofs.

Lemma role_is_stripped_part_witness :
  2 < len (py "Senior Python Developer")
  /\ strip (py "Senior Python Developer") = py "Senior Python Developer"
  /\ infix (py "Senior Python Developer")
           (py "  Analyze this resume for Senior Python Developer position ")
  /\ 5 <= len (strip (py "  Analyze this resume for Senior Python Developer position ")).
Proof.
  apply (role_is_stripped_part
           (py "  Analyze this resume for Senior Python Developer position ")
           (py "Senior Python Developer")).
  vm_compute. reflexivity.
Defined.

Lemma role_without_indicator_witness :
  extract_target_role (py " Data Scientist ") = Some (py "Data Scientist").
Proof.
  apply (role_without_indicator (py " Data Scientist ")).
  intros indicator Hin Hinf. apply contains_iff in Hinf.
  simpl in Hin.
  repeat (destruct Hin as [<- | Hin]; [vm_compute in Hinf; discriminate|]).
  exact Hin.
Defined.

(* ================================================================== *)
(** ** Sections and headers *)
(* ================================================================== *)

Section SectionsProofs.
Context {cm : CaseMap}.
#[local] Arguments py : simpl never.
#[local] Arguments join : simpl never.
#[local] Arguments section_title : simpl never.

Lemma section_of_nonempty (h c : str) : section_of h c -> nonempty c = true.
Proof. intros [b ->]. reflexivity. Qed.

Lemma section_of_app (h c x : str) : section_of h c -> section_of h (c ++ x).
Proof. intros [b ->]. exists (b ++ x). rewrite <- !app_assoc. reflexivity. Qed.

Lemma Forall2_snoc {A B} (P : A -> B -> Prop) (l : list A) (l' : list B)
  (a : A) (b : B) :
  Forall2 P l l' -> P a b -> Forall2 P (l ++ [a]) (l' ++ [b]).
Proof.
  intros H1 H2. apply Forall2_app; [exact H1|]. constructor; [exact H2|].
  constructor.
Qed.

(** Adding to the open section keeps the invariant. *)
Lemma seg_inv_add (hs : list str) (secs : list str) (cs : option str)
  (para : list str) (x : str) (b : bool) :
  seg_inv hs {| structured_sections := secs; current_section := cs;
                current_paragraph := para |} ->
  forall para',
  seg_inv hs {| structured_sections := secs;
                current_section :=
                  if section_set cs && b then section_add cs x else cs;
                current_paragraph := para' |}.
Proof.
  unfold seg_inv. cbn [current_section structured_sections].
  intros H para'. destruct cs as [c|]; [|exact H].
  destruct H as [hs' [h [E [F S]]]].
  cbn [section_set]. rewrite (section_of_nonempty h c S). cbn [andb].
  destruct b; cbn [section_add].
  - exists hs', h. repeat split; auto. apply section_of_app, S.
  - exists hs', h. repeat split; auto.
Qed.

Lemma seg_inv_close (hs : list str) (secs : list str) (cs : option str)
  (para : list str) :
  seg_inv hs {| structured_sections := secs; current_section := cs;
                current_paragraph := para |} ->
  Forall2 section_of hs (append_section secs cs).
Proof.
  unfold seg_inv. cbn [current_section structured_sections].
  destruct cs as [c|]; [|auto].
  intros [hs' [h [-> [F S]]]]. cbn [append_section].
  rewrite (section_of_nonempty h c S). apply Forall2_snoc; assumption.
Qed.

Lemma line_step_inv (hs : list str) (st : seg_state) (l : str) :
  seg_inv hs st -> seg_inv (hs ++ header_lines [l]) (line_step st l).
Proof.
  intros H. unfold header_lines, line_step. cbn [filter].
  destruct st as [secs cs para]. cbn [current_section structured_sections
                                      current_paragraph].
  destruct (strip l) as [|x t] eqn:E.
  - cbn [nonempty andb]. rewrite app_nil_r.
    destruct para as [|p para]; [exact H|].
    pose proof (seg_inv_add hs secs cs (p :: para)
                  (py " " ++ join (py " ") (p :: para)) true H []) as H'.
    rewrite andb_true_r in H'. exact H'.
  - cbn [nonempty andb]. destruct (is_header (x :: t)) eqn:Hh.
    + pose proof (seg_inv_add hs secs cs para
                    (py " " ++ join (py " ") para)
                    (negb (length para =? 0)%nat) H para) as H1.
      apply seg_inv_close in H1.
      unfold seg_inv. cbn [current_section structured_sections].
      exists hs, l. repeat split; auto.
      exists []. rewrite E, app_nil_r. reflexivity.
    + rewrite app_nil_r.
      match goal with |- context [if ?b then _ else _] => destruct b end.
      * pose proof (seg_inv_add hs secs cs para
                      (py " " ++ join (py " ") (para ++ [x :: t]) ++ LF)
                      true H []) as H'.
        rewrite andb_true_r in H'. exact H'.
      * pose proof (seg_inv_add hs secs cs para [] false H
                      (para ++ [x :: t])) as H'.
        rewrite andb_false_r in H'. exact H'.
Qed.

Lemma header_lines_app (a b : list str) :
  header_lines (a ++ b) = header_lines a ++ header_lines b.
Proof. apply filter_app. Qed.

Lemma fold_inv (ls : list str) (hs : list str) (st : seg_state) :
  seg_inv hs st ->
  seg_inv (hs ++ header_lines ls) (fold_left line_step ls st).
Proof.
  revert hs st. induction ls as [|l ls IH]; intros hs st H.
  - simpl. rewrite app_nil_r. exact H.
  - change (l :: ls) with ([l] ++ ls).
    rewrite header_lines_app, app_assoc. simpl fold_left.
    apply IH, line_step_inv, H.
Qed.

Lemma page_step_sections (hs : list str) (sections : list str)
  (page : DocumentPage) :
  Forall2 section_of hs sections ->
  Forall2 section_of (hs ++ header_lines (page_lines page))
          (page_step sections page).
Proof.
  intros H. unfold page_step, page_lines.
  destruct (lines page) as [[|l ls]|];
    try (cbn [header_lines filter]; rewrite app_nil_r; exact H).
  pose proof (fold_inv (l :: ls) hs
                {| structured_sections := sections; current_section := None;
                   current_paragraph := [] |} H) as Hf.
  destruct (fold_left line_step (l :: ls) _) as [secs cs para].
  unfold finish_page. cbn [current_section structured_sections
                            current_paragraph].
  pose proof (seg_inv_add _ secs cs para (py " " ++ join (py " ") para)
                (negb (length para =? 0)%nat) Hf para) as H1.
  apply seg_inv_close in H1. exact H1.
Qed.

Lemma pages_sections (ps : list DocumentPage) (hs : list str)
  (sections : list str) :
  Forall2 section_of hs sections ->
  Forall2 section_of (hs ++ document_headers ps)
          (fold_left page_step ps sections).
Proof.
  revert hs sections. induction ps as [|p ps IH]; intros hs sections H.
  - simpl. rewrite app_nil_r. exact H.
  - unfold document_headers. simpl flat_map. rewrite app_assoc.
    simpl fold_left. apply IH, page_step_sections, H.
Qed.

(** X3.  The segmenter makes one section for each header line, in the
    order of the document: the i-th section of the output list begins with
    the decorated, uppercased text of the i-th header line. *)
Theorem one_section_per_header (ps : list DocumentPage) :
  Forall2 section_of (document_headers ps) (segment_pages ps)
  /\ length (segment_pages ps) = length (document_headers ps).
Proof.
  assert (H : Forall2 section_of (document_headers ps) (segment_pages ps)).
  { apply (pages_sections ps [] []). constructor. }
  split; [exact H|]. symmetry. eapply Forall2_length, H.
Qed.

Lemma filter_none {A} (f : A -> bool) (l : list A) :
  (forall x, In x l -> f x = false) -> filter f l = [].
Proof.
  induction l as [|x l IH]; intros H; [reflexivity|]. simpl.
  rewrite (H x (or_introl eq_refl)). apply IH.
  intros y Hy. apply H. right. exact Hy.
Qed.

Lemma flat_map_none {A B} (f : A -> list B) (l : list A) :
  (forall x, In x l -> f x = []) -> flat_map f l = [].
Proof.
  induction l as [|x l IH]; intros H; [reflexivity|]. simpl.
  rewrite (H x (or_introl eq_refl)). apply IH.
  intros y Hy. apply H. right. exact Hy.
Qed.

(** X4.  When no line of the document is a header, nothing is segmented
    and the text returned is the raw content of the result, or the empty
    text when there is none. *)
Theorem no_header_gives_raw_content (result : AnalyzeResult) :
  (forall ps page l, pages result = Some ps -> In page ps ->
                     In l (page_lines page) ->
                     strip l = [] \/ is_header (strip l) = false) ->
  extract_structured_content result
  = match content result with
    | Some c => c
    | None => []
    end.
Proof.
  intros H. unfold extract_structured_content.
  destruct (pages result) as [ps|]; [|reflexivity].
  assert (Hd : document_headers ps = []).
  { apply flat_map_none. intros page Hp. apply filter_none. intros l Hl.
    destruct (H ps page l eq_refl Hp Hl) as [E | E]; rewrite E.
    - reflexivity.
    - apply andb_false_r. }
  pose proof (pages_sections ps [] [] (Forall2_nil _)) as Hs.
  cbn [app] in Hs. rewrite Hd in Hs. fold (segment_pages ps) in Hs.
  inversion Hs. reflexivity.
Qed.

End SectionsProofs.


(* ================================================================== *)
(** ** More on decoding *)
(* ================================================================== *)




Lemma from_first_none (c : char) (s : str) :
  ~ In c s -> from_first c s = None.
Proof.
  induction s as [|x s IH]; intros H; simpl; [reflexivity|].
  destruct (N.eqb x c) eqn:E.
  - apply N.eqb_eq in E. destruct H. left. exact E.
  - apply IH. intros Hin. apply H. right. exact Hin.
Qed.



Lemma make_skills_map (entries : list pyvalue) :
  forallb skill_shaped entries = true ->
  make_skills entries = Ok (map skill_of entries).
Proof.
  induction entries as [|e es IH]; [reflexivity|]. simpl.
  rewrite andb_true_iff. intros [He Hes]. rewrite (IH Hes).
  unfold skill_shaped, has_key in He. destruct e; try discriminate.
  unfold make_skill, py_getitem, skill_of, field.
  destruct (dict_lookup d (py "skill")); [|discriminate].
  destruct (dict_lookup d (py "relevance_score")); [|discriminate].
  destruct (dict_lookup d (py "category")); [|discriminate].
  reflexivity.
Qed.

(** X7.  The skills of the record are the entries of the reply's skills
    list, as many and in the same order, each with the values of its three
    keys; other keys of an entry are ignored. *)
Theorem skills_follow_reply (text : pyvalue) (d : list (str * pyvalue))
  (entries : list pyvalue) :
  dict_lookup d (py "skills") = Some (PyList entries) ->
  forallb skill_shaped entries = true ->
  exists r, build_analysis text (PyDict d) = Ok r
            /\ skills r = map skill_of entries.
Proof.
  intros Hs He. unfold build_analysis. cbn [py_get bind]. rewrite Hs.
  cbn [py_iter bind]. rewrite (make_skills_map entries He). cbn [bind].
  eexists. split; reflexivity.
Qed.

(* ================================================================== *)
(** ** More on the REST extraction *)
(* ================================================================== *)

Section MoreGatewayProofs.
Variable net : nat -> result HttpResponse.
#[local] Arguments py : simpl never.

(** A fault of the transport at submission [k] ends the loop there. *)
Lemma try_versions_fault (ep d : str) (vs : list str) (k : nat) (w : World)
  (e : exn) :
  (k <= length vs)%nat ->
  (forall i, (i < k)%nat -> rejected (net (issued w + i))) ->
  net (issued w + k) = Raise e ->
  try_versions net ep d vs w =
  (Raise e,
   {| issued := S (issued w + k);
      trace := trace w
               ++ firstn (S k)
                    (map (fun v => Post (analyze_url ep v) d) vs
                     ++ [Post (legacy_url ep) d]) |}).
Proof.
  revert k w. induction vs as [|v vs IH]; intros k w Hk H Hn.
  - assert (k = 0)%nat by (simpl in Hk; lia). subst k.
    rewrite Nat.add_0_r in *. simpl. unfold requests_post, send.
    rewrite Hn. reflexivity.
  - rewrite try_versions_step. cbv zeta. destruct k as [|k].
    + rewrite Nat.add_0_r in *. rewrite Hn. reflexivity.
    + destruct (H 0%nat ltac:(lia)) as [r0 [E Hr0]].
      rewrite Nat.add_0_r in E. rewrite E.
      replace (status_code r0 =? 202) with false
        by (symmetry; apply Z.eqb_neq; exact Hr0).
      rewrite (IH k _ ltac:(simpl in Hk; lia)); cbn [issued trace].
      * rewrite <- app_assoc.
        replace (S (issued w) + k)%nat with (issued w + S k)%nat by lia.
        reflexivity.
      * intros i Hi.
        replace (S (issued w) + i)%nat with (issued w + S i)%nat by lia.
        apply H. lia.
      * replace (S (issued w) + k)%nat with (issued w + S k)%nat by lia.
        exact Hn.
Qed.

(** The submissions: at most one for each version and one more. *)
Lemma try_versions_count (ep d : str) (vs : list str) (w : World) :
  exists ps, trace (snd (try_versions net ep d vs w)) = trace w ++ ps
             /\ Forall (fun e => is_post e = true) ps
             /\ (length ps <= S (length vs))%nat
             /\ issued (snd (try_versions net ep d vs w))
                = (issued w + length ps)%nat.
Proof.
  revert w. induction vs as [|v vs IH]; intros w.
  - exists [Post (legacy_url ep) d]. simpl. repeat split; try lia.
    constructor; [reflexivity | constructor].
  - rewrite try_versions_step. cbv zeta.
    assert (Hone : exists ps,
               trace w ++ [Post (analyze_url ep v) d] = trace w ++ ps
               /\ Forall (fun e => is_post e = true) ps
               /\ (length ps <= S (length (v :: vs)))%nat
               /\ S (issued w) = (issued w + length ps)%nat).
    { eexists. split; [reflexivity|]. simpl. repeat split; try lia.
      constructor; [reflexivity | constructor]. }
    destruct (net (issued w)) as [r|e]; [|exact Hone].
    destruct (status_code r =? 202); [exact Hone|].
    destruct (IH {| issued := S (issued w);
                    trace := trace w ++ [Post (analyze_url ep v) d] |})
      as [ps [H1 [H2 [H3 H4]]]].
    exists (Post (analyze_url ep v) d :: ps). repeat split.
    + rewrite H1. cbn [trace]. rewrite <- app_assoc. reflexivity.
    + constructor; [reflexivity | exact H2].
    + simpl. lia.
    + rewrite H4. cbn [issued]. simpl. lia.
Qed.

Lemma total_sleep_app (a b : list event) :
  total_sleep (a ++ b) = total_sleep a + total_sleep b.
Proof.
  induction a as [|e a IH]; [reflexivity|]. simpl. rewrite IH.
  destruct e; lia.
Qed.

Lemma total_sleep_posts (ps : list event) :
  Forall (fun e => is_post e = true) ps -> total_sleep ps = 0.
Proof.
  induction 1 as [|e ps He _ IH]; [reflexivity|].
  destruct e; try discriminate. exact IH.
Qed.

Lemma total_sleep_polls (loc : str) (m : nat) :
  total_sleep (polls loc m) = 2 * Z.of_nat m.
Proof.
  induction m as [|m IH]; [reflexivity|].
  rewrite polls_S, total_sleep_app, IH. simpl total_sleep. lia.
Qed.

(** The world a run of the REST extraction ends in. *)
Lemma rest_world (di_key di_endpoint : option str) (pdf : result str) :
  exists ps loc m,
    snd (extract_text_from_pdf_rest net di_key di_endpoint pdf initial_world)
    = {| issued := length ps + m; trace := ps ++ polls loc m |}
    /\ Forall (fun e => is_post e = true) ps
    /\ (length ps <= 4)%nat /\ (m <= 30)%nat.
Proof.
  assert (Hnone : exists (ps : list event) (loc : str) (m : nat),
            initial_world = {| issued := length ps + m;
                               trace := ps ++ polls loc m |}
            /\ Forall (fun e => is_post e = true) ps
            /\ (length ps <= 4)%nat /\ (m <= 30)%nat).
  { exists [], [], 0%nat. repeat split; auto; lia. }
  unfold extract_text_from_pdf_rest. rewrite reraise_world.
  destruct (negb (opt_truthy di_key) || negb (opt_truthy di_endpoint));
    [exact Hnone|].
  unfold bindM at 1. unfold lift.
  destruct pdf as [d|e]; [|exact Hnone].
  set (ep := rstrip_char 47%N _).
  unfold bindM.
  pose proof (start_analysis_world net ep d initial_world) as Hw.
  destruct (try_versions_count ep d api_versions initial_world)
    as [ps [H1 [H2 [H3 H4]]]].
  rewrite <- Hw in H1, H4. cbn [trace issued initial_world app Nat.add] in *.
  destruct (start_analysis net ep d initial_world) as [[loc|e] w1];
    cbn [snd] in *.
  - destruct (poll_world net loc max_attempts w1) as [m [Hm [_ Hp]]].
    exists ps, loc, m. rewrite Hp. unfold polled. rewrite H1, H4.
    repeat split; auto.
  - exists ps, [], 0%nat. destruct w1 as [n tr]. cbn [trace issued] in *.
    subst. rewrite Nat.add_0_r, app_nil_r. repeat split; auto. lia.
Qed.

End MoreGatewayProofs.

(** X8.  Whatever the service does, one call of the REST extraction sends
    at most 4 submissions and at most 30 polls, 34 requests in all, and
    sleeps two seconds for each poll, never more than 60 seconds. *)
Theorem request_budget (net : nat -> result HttpResponse)
  (di_key di_endpoint : option str) (pdf : result str) :
  let w := snd (extract_text_from_pdf_rest net di_key di_endpoint pdf
                  initial_world) in
  (length (posts_of (trace w)) <= 4)%nat
  /\ (count_gets (trace w) <= 30)%nat
  /\ issued w = (length (posts_of (trace w)) + count_gets (trace w))%nat
  /\ (issued w <= 34)%nat
  /\ total_sleep (trace w) = 2 * Z.of_nat (count_gets (trace w))
  /\ total_sleep (trace w) <= 60.
Proof.
  intros w. subst w.
  destruct (rest_world net di_key di_endpoint pdf)
    as [ps [loc [m [Hw [Hp [H4 H30]]]]]].
  rewrite Hw. cbn [trace issued].
  rewrite posts_of_app, posts_of_polls, app_nil_r, (posts_of_posts ps Hp).
  rewrite count_gets_app, count_gets_polls, (count_gets_posts ps Hp).
  rewrite total_sleep_app, total_sleep_polls, (total_sleep_posts ps Hp).
  cbn [Nat.add]. repeat split; lia.
Qed.

(** X9.  A fault of the transport on a submission ends the call: the
    error is the fault, wrapped, and neither a later version nor the legacy
    endpoint is tried after it. *)
Theorem submission_fault_is_fatal (net : nat -> result HttpResponse)
  (key ep d : str) (k : nat) (e : exn) :
  nonempty key = true -> nonempty ep = true ->
  (k <= 3)%nat ->
  (forall i, (i < k)%nat -> rejected (net i)) ->
  net k = Raise e ->
  fst (rest_run net key ep d) = Raise (ErrorExtractingText e)
  /\ trace (snd (rest_run net key ep d))
     = firstn (S k) (map (submission ep d) api_versions
                     ++ [legacy_submission ep d]).
Proof.
  intros Hk He Hk3 Hrej Hn. rewrite rest_run_unfold by assumption.
  unfold reraise_as, bindM, start_analysis, bindM.
  rewrite (try_versions_fault net _ d api_versions k initial_world e)
    by auto.
  split; reflexivity.
Qed.


(** X11.  A poll answered 200 whose body is not a JSON object ends the
    call at once: with the decoding error when the body is not JSON, and
    with an attribute error when it is JSON of another kind. *)
Theorem poll_body_must_be_object (net : nat -> result HttpResponse)
  (key ep d loc : str) (w1 : World) (j : nat) (r : HttpResponse) :
  nonempty key = true -> nonempty ep = true ->
  start_analysis net (rstrip_char 47%N ep) d initial_world = (Ok loc, w1) ->
  (j < 30)%nat ->
  (forall i, (i < j)%nat -> still_running (net (issued w1 + i)%nat)) ->
  net (issued w1 + j)%nat = Ok r ->
  status_code r = 200 ->
  (forall body, json r <> Ok (PyDict body)) ->
  fst (rest_run net key ep d)
  = Raise (ErrorExtractingText
             (match json r with
              | Raise e => e
              | Ok _ => AttributeError
              end))
  /\ count_gets (trace (snd (rest_run net key ep d))) = S j.
Proof.
  intros Hk He Hs Hj Hrun Hn Hc Hb.
  destruct (run_at_poll net key ep d loc w1 j r Hk He Hs Hj Hrun Hn)
    as [Hr Hg].
  rewrite Hr. unfold reraise_as, poll_response. rewrite Hc.
  cbn [Z.eqb Pos.eqb negb].
  destruct (json r) as [v|e]; cbn [bind].
  - destruct v; try (cbn [py_get bind fst snd]; split; [reflexivity | exact Hg]).
    destruct (Hb d0 eq_refl).
  - cbn [fst snd]. split; [reflexivity | exact Hg].
Qed.

(** X12.  A result with status succeeded that holds no analyzeResult, or
    one without content, makes the call return the empty text, not an
    error. *)
Theorem succeeded_without_payload (net : nat -> result HttpResponse)
  (key ep d loc : str) (w1 : World) (j : nat) (r : HttpResponse)
  (body : list (str * pyvalue)) :
  nonempty key = true -> nonempty ep = true ->
  start_analysis net (rstrip_char 47%N ep) d initial_world = (Ok loc, w1) ->
  (j < 30)%nat ->
  (forall i, (i < j)%nat -> still_running (net (issued w1 + i)%nat)) ->
  net (issued w1 + j)%nat = Ok r ->
  status_code r = 200 -> json r = Ok (PyDict body) ->
  dict_lookup body (py "status") = Some (PyStr (py "succeeded")) ->
  (dict_lookup body (py "analyzeResult") = None
   \/ exists a, dict_lookup body (py "analyzeResult") = Some (PyDict a)
                /\ dict_lookup a (py "content") = None) ->
  fst (rest_run net key ep d) = Ok (PyStr []).
Proof.
  intros Hk He Hs Hj Hrun Hn Hc Hb Hst Hp.
  destruct (run_at_poll net key ep d loc w1 j r Hk He Hs Hj Hrun Hn)
    as [Hr _].
  rewrite Hr. unfold reraise_as, poll_response. rewrite Hc, Hb.
  cbn [Z.eqb Pos.eqb negb bind py_get]. rewrite Hst.
  change (eq_str (PyStr (py "succeeded")) (py "succeeded")) with true.
  cbv iota. unfold succeeded_content. cbn [py_get bind].
  destruct Hp as [Hp | [a [Hp Hq]]]; rewrite Hp.
  - reflexivity.
  - cbn [py_get bind]. rewrite Hq. reflexivity.
Qed.

(* ================================================================== *)
(** ** The preferred path and the credentials check *)
(* ================================================================== *)

Lemma rest_error_wrapped (net : nat -> result HttpResponse)
  (di_key di_endpoint : option str) (pdf : result str) (w : World) (e : exn) :
  fst (extract_text_from_pdf_rest net di_key di_endpoint pdf w) = Raise e ->
  exists cause, e = ErrorExtractingText cause.
Proof.
  unfold extract_text_from_pdf_rest, reraise_as.
  match goal with |- context [let (_, _) := ?m w in _] =>
    destruct (m w) as [[v|e'] w'] end; cbn [fst].
  - discriminate.
  - intros H. inversion H. exists e'. reflexivity.
Qed.

(** X13.  Without a key or an endpoint, and with credentials but a file
    that cannot be read, [extract_text_from_pdf] fails before anything is
    sent, whether the analyser uses the SDK or not: the error is the one of
    the REST path and the world is untouched. *)
Theorem nothing_sent_without_credentials_or_file {cm : CaseMap}
  (net : nat -> result HttpResponse) (use_sdk : bool)
  (di_key di_endpoint : option str) (pdf : result str)
  (analyze : str -> result AnalyzeResult) (w : World) :
  (opt_truthy di_key = false \/ opt_truthy di_endpoint = false ->
   extract_text_from_pdf net use_sdk di_key di_endpoint pdf analyze w
   = (Raise (ErrorExtractingText CredentialsNotFound), w))
  /\ (forall e, opt_truthy di_key = true -> opt_truthy di_endpoint = true ->
        pdf = Raise e ->
        extract_text_from_pdf net use_sdk di_key di_endpoint pdf analyze w
        = (Raise (ErrorExtractingText e), w)).
Proof.
  split.
  - intros H.
    assert (Hc : negb (opt_truthy di_key) || negb (opt_truthy di_endpoint)
                 = true).
    { destruct H as [H | H]; rewrite H; [reflexivity | apply orb_true_r]. }
    unfold extract_text_from_pdf, extract_text_from_pdf_sdk,
      extract_text_from_pdf_rest, reraise_as.
    rewrite Hc. destruct use_sdk; reflexivity.
  - intros e Hk He ->.
    unfold extract_text_from_pdf, extract_text_from_pdf_sdk,
      extract_text_from_pdf_rest, reraise_as.
    rewrite Hk, He. destruct use_sdk; reflexivity.
Qed.

(** X14.  [extract_text_from_pdf] either returns the segmented text of the
    SDK's result, sending nothing itself, or behaves exactly as the REST
    extraction: an error of the SDK path is never the error of the call,
    which is always one the REST path raised. *)
Theorem sdk_result_or_rest_run {cm : CaseMap}
  (net : nat -> result HttpResponse) (use_sdk : bool)
  (di_key di_endpoint : option str) (pdf : result str)
  (analyze : str -> result AnalyzeResult) (w : World) :
  ((exists pdf_data result,
       use_sdk = true /\ pdf = Ok pdf_data /\ analyze pdf_data = Ok result
       /\ extract_text_from_pdf net use_sdk di_key di_endpoint pdf analyze w
          = (Ok (PyStr (extract_structured_content result)), w))
   \/ extract_text_from_pdf net use_sdk di_key di_endpoint pdf analyze w
      = extract_text_from_pdf_rest net di_key di_endpoint pdf w)
  /\ (forall e,
        fst (extract_text_from_pdf net use_sdk di_key di_endpoint pdf
               analyze w) = Raise e ->
        exists cause, e = ErrorExtractingText cause).
Proof.
  assert (H : (exists pdf_data result,
       use_sdk = true /\ pdf = Ok pdf_data /\ analyze pdf_data = Ok result
       /\ extract_text_from_pdf net use_sdk di_key di_endpoint pdf analyze w
          = (Ok (PyStr (extract_structured_content result)), w))
   \/ extract_text_from_pdf net use_sdk di_key di_endpoint pdf analyze w
      = extract_text_from_pdf_rest net di_key di_endpoint pdf w).
  { unfold extract_text_from_pdf, extract_text_from_pdf_sdk.
    destruct use_sdk; [|right; reflexivity]. cbn [negb].
    destruct (negb (opt_truthy di_key) || negb (opt_truthy di_endpoint));
      [right; reflexivity|].
    destruct pdf as [d|e]; [|right; reflexivity].
    destruct (analyze d) as [r|e] eqn:E; [|right; reflexivity].
    left. exists d, r. repeat split; auto. }
  split; [exact H|].
  intros e He. destruct H as [[d [r [_ [_ [_ H]]]]] | H]; rewrite H in He.
  - discriminate.
  - apply (rest_error_wrapped net di_key di_endpoint pdf w e He).
Qed.

Section ProbeProofs.
Variable net : nat -> result HttpResponse.

Lemma probe_step (url : str) (rest : list str) (w : World) :
  probe net (url :: rest) w =
  let w' := {| issued := S (issued w); trace := trace w ++ [Get url] |} in
  match net (issued w) with
  | Ok response => if status_code response =? 200 then (Ok true, w')
                   else probe net rest w'
  | Raise RequestException => probe net rest w'
  | Raise e => (Raise e, w')
  end.
Proof. reflexivity. Qed.

Lemma probe_missed_next (url : str) (rest : list str) (w : World) :
  probe_missed (net (issued w)) ->
  probe net (url :: rest) w
  = probe net rest {| issued := S (issued w); trace := trace w ++ [Get url] |}.
Proof.
  intros H. rewrite probe_step. cbv zeta.
  destruct H as [[r [E Hr]] | E]; rewrite E.
  - replace (status_code r =? 200) with false
      by (symmetry; apply Z.eqb_neq; exact Hr).
    reflexivity.
  - reflexivity.
Qed.

Lemma probe_first_200 (urls : list str) (k : nat) (w : World)
  (r : HttpResponse) :
  (k < length urls)%nat ->
  (forall i, (i < k)%nat -> probe_missed (net (issued w + i))) ->
  net (issued w + k) = Ok r -> status_code r = 200 ->
  probe net urls w =
  (Ok true, {| issued := S (issued w + k);
               trace := trace w ++ map Get (firstn (S k) urls) |}).
Proof.
  revert k w. induction urls as [|u urls IH]; intros k w Hk H Hn Hr.
  - simpl in Hk. lia.
  - destruct k as [|k].
    + rewrite probe_step. cbv zeta. rewrite Nat.add_0_r in *.
      rewrite Hn, Hr. reflexivity.
    + rewrite probe_missed_next
        by (rewrite <- (Nat.add_0_r (issued w)); apply H; lia).
      rewrite (IH k _ ltac:(simpl in Hk; lia)); cbn [issued trace].
      * rewrite <- app_assoc.
        replace (S (issued w) + k)%nat with (issued w + S k)%nat by lia.
        reflexivity.
      * intros i Hi.
        replace (S (issued w) + i)%nat with (issued w + S i)%nat by lia.
        apply H. lia.
      * replace (S (issued w) + k)%nat with (issued w + S k)%nat by lia.
        exact Hn.
      * exact Hr.
Qed.

Lemma probe_all_missed (urls : list str) (w : World) :
  (forall i, (i < length urls)%nat -> probe_missed (net (issued w + i))) ->
  probe net urls w =
  (Ok false, {| issued := issued w + length urls;
                trace := trace w ++ map Get urls |}).
Proof.
  revert w. induction urls as [|u urls IH]; intros w H.
  - simpl. unfold ret. rewrite Nat.add_0_r, app_nil_r.
    destruct w; reflexivity.
  - rewrite probe_missed_next
      by (rewrite <- (Nat.add_0_r (issued w)); apply H; simpl; lia).
    rewrite IH; cbn [issued trace].
    + rewrite <- app_assoc.
      replace (S (issued w) + length urls)%nat
        with (issued w + length (u :: urls))%nat by (simpl; lia).
      reflexivity.
    + intros i Hi.
      replace (S (issued w) + i)%nat with (issued w + S i)%nat by lia.
      apply H. simpl. lia.
Qed.

End ProbeProofs.

(** X15.  The credentials check answers [True] exactly when one of its
    three probes is answered 200: it probes the URLs in order, passes over
    any other status and over a fault of the transport, and stops at the
    first 200.  When none is answered 200 it has made the three probes and
    answers [False]; without a key or an endpoint it answers [False] and
    probes nothing. *)
Theorem credentials_check_outcome (net : nat -> result HttpResponse)
  (key ep : str) :
  nonempty key = true -> nonempty ep = true ->
  (forall k r, (k < 3)%nat ->
      (forall i, (i < k)%nat -> probe_missed (net i)) ->
      net k = Ok r -> status_code r = 200 ->
      test_document_intelligence net (Some key) (Some ep) initial_world
      = (Ok true,
         {| issued := S k;
            trace := map Get (firstn (S k)
                                (test_urls (rstrip_char 47%N ep))) |}))
  /\ ((forall i, (i < 3)%nat -> probe_missed (net i)) ->
      test_document_intelligence net (Some key) (Some ep) initial_world
      = (Ok false,
         {| issued := 3;
            trace := map Get (test_urls (rstrip_char 47%N ep)) |}))
  /\ (forall w di_key di_endpoint,
        opt_truthy di_key = false \/ opt_truthy di_endpoint = false ->
        test_document_intelligence net di_key di_endpoint w = (Ok false, w)).
Proof.
  intros Hk He. unfold test_document_intelligence, opt_truthy.
  rewrite Hk, He. cbn [negb orb]. split; [|split].
  - intros k r Hk3 Hm Hn Hr.
    rewrite (probe_first_200 net _ k initial_world r); auto.
  - intros Hm. rewrite probe_all_missed; auto.
  - intros w di_key di_endpoint H.
    replace (negb _ || negb _) with true; [reflexivity|].
    symmetry. destruct H as [H | H]; fold (opt_truthy di_key) in *;
      fold (opt_truthy di_endpoint) in *; rewrite H;
      [reflexivity | apply orb_true_r].
Qed.

(* ================================================================== *)
(** ** Grouping, bars and installation *)
(* ================================================================== *)

Section GroupingProofs.
Context {A : Type}.
Variable category : A -> str.

Lemma str_eqb_refl (s : str) : str_eqb s s = true.
Proof. apply str_eqb_eq. reflexivity. Qed.

Lemma str_eqb_trans_false (a b c : str) :
  str_eqb a b = true -> str_eqb a c = str_eqb b c.
Proof. intros H. apply str_eqb_eq in H. subst. reflexivity. Qed.

Lemma group_of_insert (groups : list (str * list A)) (k k' : str) (x : A) :
  group_of (group_insert groups k x) k' =
  if str_eqb k k'
  then Some (match group_of groups k with
             | Some xs => xs ++ [x]
             | None => [x]
             end)
  else group_of groups k'.
Proof.
  induction groups as [|[k0 xs] r IH]; simpl.
  - reflexivity.
  - destruct (str_eqb k0 k) eqn:E; simpl.
    + rewrite (str_eqb_trans_false k0 k k' E).
      destruct (str_eqb k k'); reflexivity.
    + rewrite IH. destruct (str_eqb k0 k') eqn:E'; [|reflexivity].
      destruct (str_eqb k k') eqn:E''; [|reflexivity].
      apply str_eqb_eq in E', E''. subst. rewrite str_eqb_refl in E.
      discriminate.
Qed.

Lemma keys_insert (groups : list (str * list A)) (k : str) (x : A) :
  map fst (group_insert groups k x) =
  match group_of groups k with
  | Some _ => map fst groups
  | None => map fst groups ++ [k]
  end.
Proof.
  induction groups as [|[k0 xs] r IH]; simpl; [reflexivity|].
  destruct (str_eqb k0 k) eqn:E; simpl; [reflexivity|].
  rewrite IH. destruct (group_of r k); reflexivity.
Qed.

Lemma group_of_none (groups : list (str * list A)) (k : str) :
  group_of groups k = None -> ~ In k (map fst groups).
Proof.
  induction groups as [|[k0 xs] r IH]; simpl; [tauto|].
  destruct (str_eqb k0 k) eqn:E; [discriminate|].
  intros H [H0 | H0]; [|exact (IH H H0)].
  subst. rewrite str_eqb_refl in E. discriminate.
Qed.

Lemma group_of_in (groups : list (str * list A)) (k : str) (xs : list A) :
  NoDup (map fst groups) ->
  (In (k, xs) groups <-> group_of groups k = Some xs).
Proof.
  induction groups as [|[k0 ys] r IH]; simpl; intros Hn.
  - split; [tauto | discriminate].
  - inversion Hn as [|? ? Hk0 Hr]; subst.
    destruct (str_eqb k0 k) eqn:E.
    + apply str_eqb_eq in E. subst k0. split.
      * intros [H | H]; [inversion H; reflexivity|].
        destruct Hk0. apply (in_map fst) in H. exact H.
      * intros H. inversion H. left. reflexivity.
    + rewrite <- (IH Hr). split; [|tauto].
      intros [H | H]; [|exact H]. inversion H. subst.
      rewrite str_eqb_refl in E. discriminate.
Qed.

Lemma fold_snoc (l : list A) (x : A) :
  group_by_category category (l ++ [x])
  = group_insert (group_by_category category l) (category x) x.
Proof. unfold group_by_category. rewrite fold_left_app. reflexivity. Qed.

(** The groups after the skills [l]: keys once each, and under a key the
    skills of that category, in order. *)
Lemma groups_spec (l : list A) :
  NoDup (map fst (group_by_category category l))
  /\ forall k,
       group_of (group_by_category category l) k =
       match filter (fun s => str_eqb (category s) k) l with
       | [] => None
       | xs => Some xs
       end.
Proof.
  induction l as [|x l [IH1 IH2]] using rev_ind.
  - split; [constructor | reflexivity].
  - rewrite fold_snoc. split.
    + rewrite keys_insert.
      destruct (group_of (group_by_category category l) (category x)) eqn:E;
        [exact IH1|].
      apply NoDup_app; [exact IH1 | repeat constructor; tauto |].
      intros k Hk [<- | []]. exact (group_of_none _ _ E Hk).
    + intros k. rewrite group_of_insert, filter_app. cbn [filter].
      destruct (str_eqb (category x) k) eqn:E.
      * apply str_eqb_eq in E. subst k. rewrite IH2.
        destruct (filter _ l) as [|y ys]; reflexivity.
      * rewrite app_nil_r. apply IH2.
Qed.

End GroupingProofs.

(** X16.  Grouping by category loses and repeats nothing: each category
    has one group, and the group of a category holds exactly the skills of
    that category, in the order of the list; a group is never empty. *)
Theorem grouping_partitions_skills {A : Type} (category : A -> str)
  (skills : list A) :
  NoDup (map fst (group_by_category category skills))
  /\ (forall k xs,
        In (k, xs) (group_by_category category skills) <->
        xs <> [] /\ xs = filter (fun s => str_eqb (category s) k) skills)
  /\ (forall s, In s skills ->
        exists xs, In (category s, xs) (group_by_category category skills)
                   /\ In s xs).
Proof.
  destruct (groups_spec category skills) as [Hn Hg].
  assert (Hiff : forall k xs,
        In (k, xs) (group_by_category category skills) <->
        xs <> [] /\ xs = filter (fun s => str_eqb (category s) k) skills).
  { intros k xs. rewrite (group_of_in _ k xs Hn), Hg.
    destruct (filter _ skills) as [|y ys]; split.
    - discriminate.
    - intros [H1 H2]. contradiction.
    - intros H. inversion H. split; [discriminate | reflexivity].
    - intros [_ ->]. reflexivity. }
  split; [exact Hn|]. split; [exact Hiff|].
  intros s Hs.
  exists (filter (fun s' => str_eqb (category s') (category s)) skills).
  assert (Hin : In s (filter (fun s' => str_eqb (category s') (category s))
                        skills)).
  { apply filter_In. split; [exact Hs | apply str_eqb_eq; reflexivity]. }
  split; [|exact Hin]. apply Hiff. split; [|reflexivity].
  intros E. rewrite E in Hin. destruct Hin.
Qed.

Lemma len_str_times (s : str) (n : Z) :
  len (str_times s n) = len s * Z.max 0 n.
Proof.
  unfold str_times, len.
  assert (H : forall m, length (concat (repeat s m)) = (length s * m)%nat).
  { induction m as [|m IH]; simpl; [lia|]. rewrite length_app, IH. lia. }
  rewrite H. lia.
Qed.

(** X17.  The bar of the match score has ten cells, as many green as the
    percentage has tens, exactly when the percentage lies between 0 and
    109; above it the bar is all green and longer, below 0 all white and
    longer.  The bar of a skill has its five cells between 0 and 119. *)
Theorem score_bar_cells (score_percentage : Z) :
  len (match_score_bar score_percentage)
  = Z.max 10 (Z.max (score_percentage / 10) (10 - score_percentage / 10))
  /\ (len (match_score_bar score_percentage) = 10
      <-> 0 <= score_percentage <= 109)
  /\ (len (skill_score_bar score_percentage) = 5
      <-> 0 <= score_percentage <= 119).
Proof.
  unfold match_score_bar, skill_score_bar.
  rewrite !len_app, !len_str_times.
  change (len green_square) with 1. change (len white_square) with 1.
  change (len blue_square) with 1.
  pose proof (Z.div_mod score_percentage 10 ltac:(lia)).
  pose proof (Z.mod_pos_bound score_percentage 10 ltac:(lia)).
  pose proof (Z.div_mod score_percentage 20 ltac:(lia)).
  pose proof (Z.mod_pos_bound score_percentage 20 ltac:(lia)).
  repeat split; lia.
Qed.

Lemma install_deps_log (sh : nat -> bool) (deps : list str) (log : list str) :
  snd (install_deps sh deps log)
  = log ++ map (fun dep => py "pip install " ++ dep) deps.
Proof.
  revert log. induction deps as [|d deps IH]; intros log; simpl.
  - rewrite app_nil_r. reflexivity.
  - rewrite IH, <- app_assoc. reflexivity.
Qed.

(** X18.  The installation never stops early: whatever fails, it runs the
    upgrade of pip, the five core installs in their order and the install
    of the Document Intelligence package; the pre-release install follows
    exactly when that last install failed. *)
Theorem install_runs_every_step (sh : nat -> bool) :
  snd (install_main sh [])
  = [py "python -m pip install --upgrade pip setuptools wheel"]
    ++ map (fun dep => py "pip install " ++ dep) core_deps
    ++ [py "pip install azure-ai-documentintelligence"]
    ++ (if sh 6%nat then []
        else [py "pip install --pre azure-ai-documentintelligence"]).
Proof.
  unfold install_main, run_command.
  pose proof (install_deps_log sh core_deps
                ([] ++ [py "python -m pip install --upgrade pip setuptools wheel"]))
    as H.
  destruct (install_deps sh core_deps _) as [u log2]. cbn [snd] in H.
  subst log2. cbn [length app map core_deps Nat.add].
  destruct (sh 6%nat); reflexivity.
Qed.

(* ================================================================== *)
(** ** Pages and paragraphs *)
(* ================================================================== *)

Section PagesProofs.
Context {cm : CaseMap}.
#[local] Arguments py : simpl never.
#[local] Arguments join : simpl never.
#[local] Arguments section_title : simpl never.

Lemma append_section_prefix (pre secs : list str) (cs : option str) :
  append_section (pre ++ secs) cs = pre ++ append_section secs cs.
Proof.
  unfold append_section. destruct cs as [c|]; [|reflexivity].
  destruct (nonempty c); [symmetry; apply app_assoc | reflexivity].
Qed.

Lemma line_step_prefix (pre : list str) (st : seg_state) (l : str) :
  line_step (with_prefix pre st) l = with_prefix pre (line_step st l).
Proof.
  destruct st as [secs cs para]. unfold line_step, with_prefix.
  cbn [current_section structured_sections current_paragraph].
  destruct (strip l) as [|x t].
  - destruct para; reflexivity.
  - destruct (is_header (x :: t)).
    + cbn [current_section structured_sections current_paragraph].
      rewrite append_section_prefix. reflexivity.
    + match goal with |- context [if ?b then _ else _] => destruct b end;
        reflexivity.
Qed.

Lemma fold_prefix (pre : list str) (ls : list str) (st : seg_state) :
  fold_left line_step ls (with_prefix pre st)
  = with_prefix pre (fold_left line_step ls st).
Proof.
  revert st. induction ls as [|l ls IH]; intros st; [reflexivity|].
  simpl. rewrite line_step_prefix. apply IH.
Qed.

Lemma page_step_prefix (sections : list str) (page : DocumentPage) :
  page_step sections page = sections ++ page_step [] page.
Proof.
  unfold page_step. destruct (lines page) as [[|l ls]|];
    try (rewrite app_nil_r; reflexivity).
  set (st0 := {| structured_sections := []; current_section := None;
                 current_paragraph := [] |}).
  assert (E : {| structured_sections := sections; current_section := None;
                 current_paragraph := [] |} = with_prefix sections st0).
  { unfold with_prefix, st0. simpl. rewrite app_nil_r. reflexivity. }
  rewrite E, fold_prefix. unfold finish_page, with_prefix.
  cbn [current_section structured_sections current_paragraph].
  apply append_section_prefix.
Qed.

Lemma fold_pages_prefix (ps : list DocumentPage) (sections : list str) :
  fold_left page_step ps sections = sections ++ fold_left page_step ps [].
Proof.
  revert sections. induction ps as [|p ps IH]; intros sections; simpl.
  - rewrite app_nil_r. reflexivity.
  - rewrite IH, (IH (page_step [] p)), page_step_prefix, app_assoc.
    reflexivity.
Qed.

(** X19.  Each page is segmented on its own: the sections of a document
    are the sections of its pages one after the other, and no section runs
    from one page into the next. *)
Theorem pages_segmented_independently (ps1 ps2 : list DocumentPage) :
  segment_pages (ps1 ++ ps2) = segment_pages ps1 ++ segment_pages ps2.
Proof.
  unfold segment_pages. rewrite fold_left_app. apply fold_pages_prefix.
Qed.



End PagesProofs.

Lemma try_versions_accepted_upto (net : nat -> result HttpResponse)
  (ep d : str) (vs : list str) (k : nat) (w : World) (r : HttpResponse) :
  (k <= length vs)%nat ->
  (forall i, (i < k)%nat -> rejected (net (issued w + i)%nat)) ->
  net (issued w + k)%nat = Ok r -> status_code r = 202 ->
  try_versions net ep d vs w =
  (Ok r,
   {| issued := S (issued w + k);
      trace := trace w
               ++ firstn (S k)
                    (map (fun v => Post (analyze_url ep v) d) vs
                     ++ [Post (legacy_url ep) d]) |}).
Proof.
  revert k w. induction vs as [|v vs IH]; intros k w Hk H Hn Hr.
  - assert (k = 0)%nat by (simpl in Hk; lia). subst k.
    rewrite Nat.add_0_r in *. simpl. unfold requests_post, send.
    rewrite Hn. reflexivity.
  - rewrite try_versions_step. cbv zeta. destruct k as [|k].
    + rewrite Nat.add_0_r in *. rewrite Hn, Hr. reflexivity.
    + destruct (H 0%nat ltac:(lia)) as [r0 [E Hr0]].
      rewrite Nat.add_0_r in E. rewrite E.
      replace (status_code r0 =? 202) with false
        by (symmetry; apply Z.eqb_neq; exact Hr0).
      rewrite (IH k _ ltac:(simpl in Hk; lia)); cbn [issued trace].
      * rewrite <- app_assoc.
        replace (S (issued w) + k)%nat with (issued w + S k)%nat by lia.
        reflexivity.
      * intros i Hi.
        replace (S (issued w) + i)%nat with (issued w + S i)%nat by lia.
        apply H. lia.
      * replace (S (issued w) + k)%nat with (issued w + S k)%nat by lia.
        exact Hn.
      * exact Hr.
Qed.

(** X21.  Once a submission, to a version or to the legacy endpoint, is
    accepted with an operation location, every poll goes to that location,
    and at least one poll and at most 30 are made. *)
Theorem polls_go_to_returned_location (net : nat -> result HttpResponse)
  (key ep d loc : str) (k : nat) (r : HttpResponse) :
  nonempty key = true -> nonempty ep = true ->
  (k <= 3)%nat ->
  (forall i, (i < k)%nat -> rejected (net i)) ->
  net k = Ok r -> status_code r = 202 ->
  operation_location r = Some loc -> nonempty loc = true ->
  exists m, (1 <= m <= 30)%nat
    /\ trace (snd (rest_run net key ep d))
       = firstn (S k) (map (submission ep d) api_versions
                       ++ [legacy_submission ep d])
         ++ polls loc m.
Proof.
  intros Hk He Hk3 Hrej Hn Hr Hl Hne. rewrite rest_run_unfold by assumption.
  rewrite reraise_world. unfold bindM, start_analysis, bindM.
  rewrite (try_versions_accepted_upto net _ d api_versions k initial_world r)
    by auto.
  rewrite Hr, Hl, Hne. cbn [Z.eqb Pos.eqb negb]. unfold ret.
  match goal with |- context [poll net loc max_attempts ?w] =>
    destruct (poll_world net loc max_attempts w) as [m [H1 [H2 H3]]] end.
  exists m. split; [unfold max_attempts in *; lia|].
  rewrite H3. reflexivity.
Qed.

(* ================================================================== *)
(** ** The further properties at concrete inputs *)
(* ================================================================== *)


Lemma no_header_gives_raw_content_witness :
  extract_structured_content prose_page
  = py "I build compilers and I verify them as well.".
Proof.
  apply (no_header_gives_raw_content prose_page).
  intros ps page l Hp Hin Hl. inversion Hp; subst ps. clear Hp.
  destruct Hin as [<- | []]. right.
  destruct Hl as [<- | [<- | []]]; vm_compute; reflexivity.
Defined.


Lemma skills_follow_reply_witness :
  exists r, build_analysis PyNone
              (PyDict [(py "skills", PyList [go_entry; go_entry])]) = Ok r
            /\ skills r = [skill_of go_entry; skill_of go_entry].
Proof.
  apply (skills_follow_reply PyNone
           [(py "skills", PyList [go_entry; go_entry])]
           [go_entry; go_entry]).
  - reflexivity.
  - vm_compute. reflexivity.
Defined.

Lemma submission_fault_is_fatal_witness :
  fst (rest_run net_fault example_key example_endpoint example_pdf)
  = Raise (ErrorExtractingText RequestException)
  /\ trace (snd (rest_run net_fault example_key example_endpoint example_pdf))
     = [submission example_endpoint example_pdf (py "2024-02-29-preview");
        submission example_endpoint example_pdf (py "2023-07-31")].
Proof.
  refine (submission_fault_is_fatal net_fault example_key example_endpoint
            example_pdf 1%nat RequestException _ _ _ _ _).
  - reflexivity.
  - reflexivity.
  - lia.
  - intros i Hi. destruct i as [|i]; [|lia].
    eexists. split; [reflexivity|]. vm_compute. discriminate.
  - reflexivity.
Defined.


Lemma poll_body_must_be_object_witness :
  fst (rest_run net_poll_html example_key example_endpoint example_pdf)
  = Raise (ErrorExtractingText JSONDecodeError)
  /\ count_gets (trace (snd (rest_run net_poll_html example_key
                               example_endpoint example_pdf))) = 1%nat.
Proof.
  refine (poll_body_must_be_object net_poll_html example_key
            example_endpoint example_pdf example_location
            after_first_submission 0%nat html_response _ _ _ _ _ _ _ _).
  - reflexivity.
  - reflexivity.
  - vm_compute. reflexivity.
  - lia.
  - intros i Hi. lia.
  - reflexivity.
  - reflexivity.
  - intros body H. vm_compute in H. discriminate.
Defined.

Lemma succeeded_without_payload_witness :
  fst (rest_run net_succeeded_bare example_key example_endpoint example_pdf)
  = Ok (PyStr []).
Proof.
  refine (succeeded_without_payload net_succeeded_bare example_key
            example_endpoint example_pdf example_location
            after_first_submission 0%nat succeeded_bare
            [(py "status", PyStr (py "succeeded"))] _ _ _ _ _ _ _ _ _ _).
  - reflexivity.
  - reflexivity.
  - vm_compute. reflexivity.
  - lia.
  - intros i Hi. lia.
  - reflexivity.
  - reflexivity.
  - vm_compute. reflexivity.
  - reflexivity.
  - left. reflexivity.
Defined.

Lemma polls_go_to_returned_location_witness :
  exists m, (1 <= m <= 30)%nat
    /\ trace (snd (rest_run net_always_running example_key example_endpoint
                     example_pdf))
       = [submission example_endpoint example_pdf (py "2024-02-29-preview")]
         ++ polls example_location m.
Proof.
  refine (polls_go_to_returned_location net_always_running example_key
            example_endpoint example_pdf example_location 0%nat
            accepted_response _ _ _ _ _ _ _ _).
  - reflexivity.
  - reflexivity.
  - lia.
  - intros i Hi. lia.
  - reflexivity.
  - reflexivity.
  - reflexivity.
  - reflexivity.
Defined.

Lemma nothing_sent_without_credentials_or_file_witness :
  extract_text_from_pdf net_always_running true None
    (Some example_endpoint) (Ok example_pdf) (fun _ => Raise APIError)
    initial_world
  = (Raise (ErrorExtractingText CredentialsNotFound), initial_world).
Proof.
  refine (proj1 (nothing_sent_without_credentials_or_file net_always_running
                   true None (Some example_endpoint) (Ok example_pdf)
                   (fun _ => Raise APIError) initial_world) _).
  left. reflexivity.
Defined.

Lemma credentials_check_outcome_witness :
  test_document_intelligence net_probe (Some example_key)
    (Some example_endpoint) initial_world
  = (Ok true,
     {| issued := 2;
        trace := map Get (firstn 2 (test_urls (rstrip_char 47%N
                                                 example_endpoint))) |}).
Proof.
  refine (proj1 (credentials_check_outcome net_probe example_key
                   example_endpoint _ _) 1%nat ok_response _ _ _ _).
  - reflexivity.
  - reflexivity.
  - lia.
  - intros i Hi. destruct i as [|i]; [|lia].
    left. eexists. split; [reflexivity|]. vm_compute. discriminate.
  - reflexivity.
  - reflexivity.
Defined.

